(** * Run-count aggregation of [metapool/count.py]

    A shallow embedding of the count-aggregation engine: the filename
    and log parsers built on regular expressions, the log locator
    [_parsefier], the four stage aggregators and the final join of
    [run_counts].

    Modelling conventions.
    - Python [str] values are Rocq strings of 8-bit characters; the
      character classes of the patterns (digit, any character but a
      newline) are read on ASCII.
    - Python [int] is [Z].  A finite [float64] is kept as the exact
      rational it stands for (type [Q], in lowest terms); the special
      values that matter to the program, NaN and the two infinities, are
      constructors of [float64] below.  Where a number is read from a
      text, and so can be any number, its conversion to [float64] is
      the interpreter's: to the nearest value, a tie to the even one,
      and an [OverflowError] beyond the range.  The counts of records
      and of reads are converted as they are: they are below 2^53,
      where the conversion is exact.  A product of [int64] values
      wraps.
    - An exception is a value of [exn]; code that may raise returns a
      [result].  The messages of the exceptions that the interpreter
      raises are those of CPython 3.11, and its limit on the digits of
      an integer string is the default one (4300).  [warnings.warn]
      appends to a list of messages that is returned next to the
      result.
    - The file system, the JSON and CSV readers, scikit-bio's FASTQ
      reader and the way pandas prints an index in a message are
      collaborators of the program: they are the fields of the record
      [world].  A fastp report is any value that [json.load] can
      return.  [Stats.json] and the CSV report are given as [json.load]
      or [pd.read_csv] returns them, as records with the keys that the
      code looks up, each present or absent, and with values of the
      types the tools write.
    - The iteration order of a Python [set] is not specified; it is the
      order of [elements] here, and no property depends on it. *)

From Stdlib Require Import String Ascii List ZArith QArith Bool Lia.
From Stdlib Require Import DecimalString DecimalPos DecimalZ.
From stdpp Require Import base option list sets gmap strings sorting.

Import ListNotations.
Local Open Scope string_scope.
Local Open Scope list_scope.

(** ** Exceptions and results *)

(** An exception, by its class and its message; an exception of any
    other class (such as scikit-bio's [FASTQFormatError]) is kept by
    the name of its class. *)
Inductive exn : Type :=
| ValueError (msg : string)
| IOError (msg : string)
| KeyError (msg : string)
| TypeError (msg : string)
| OverflowError (msg : string)
| OtherError (class_name : string).

Inductive result (A : Type) : Type :=
| Ok (a : A)
| Raise (e : exn).

Arguments Ok {A} a.
Arguments Raise {A} e.

Definition rbind {A B : Type} (r : result A) (k : A -> result B) : result B :=
  match r with
  | Ok a => k a
  | Raise e => Raise e
  end.

Notation "'let*' x ':=' r 'in' k" := (rbind r (fun x => k))
  (at level 10, x pattern, r at level 100, k at level 200).

(** [for x in xs: acc = body(acc, x)], stopping at the first exception. *)
Fixpoint for_each {A S : Type} (body : S -> A -> result S) (xs : list A)
    (acc : S) : result S :=
  match xs with
  | [] => Ok acc
  | x :: xs' => let* acc' := body acc x in for_each body xs' acc'
  end.

(** ** Regular expressions of Python's [re], as backtracking matchers

    A matcher returns every way of matching a prefix of its input, in
    the order in which the backtracking engine tries them; [re.match]
    takes the first. *)

Definition matcher (A : Type) : Type := string -> list (A * string).

Definition m_ret {A : Type} (a : A) : matcher A := fun s => [(a, s)].

Definition m_bind {A B : Type} (m : matcher A) (k : A -> matcher B)
    : matcher B :=
  fun s => flat_map (fun ar => k (fst ar) (snd ar)) (m s).

Notation "'re' x '<-' m ';' k" := (m_bind m (fun x => k))
  (at level 10, x name, m at level 100, k at level 200, only parsing).

Fixpoint strip_prefix (p s : string) : option string :=
  match p, s with
  | EmptyString, _ => Some s
  | String a p', String b s' =>
      if Ascii.eqb a b then strip_prefix p' s' else None
  | String _ _, EmptyString => None
  end.

(** A literal. *)
Definition m_lit (p : string) : matcher unit :=
  fun s => match strip_prefix p s with
           | Some r => [(tt, r)]
           | None => []
           end.

(** One character of a class. *)
Definition m_class (p : ascii -> bool) : matcher ascii :=
  fun s => match s with
           | String c r => if p c then [(c, r)] else []
           | EmptyString => []
           end.

Definition cons_fst (c : ascii) (mr : string * string) : string * string :=
  (String c (fst mr), snd mr).

(** [x*], greedy: the longest run first, then each shorter one. *)
Fixpoint m_star (p : ascii -> bool) (s : string) : list (string * string) :=
  match s with
  | String c r =>
      if p c then map (cons_fst c) (m_star p r) ++ [(EmptyString, s)]
      else [(EmptyString, s)]
  | EmptyString => [(EmptyString, EmptyString)]
  end.

(** [x{lo,hi}], greedy. *)
Fixpoint m_rep (p : ascii -> bool) (lo hi : nat) (s : string)
    : list (string * string) :=
  match hi with
  | O => match lo with O => [(EmptyString, s)] | S _ => [] end
  | S hi' =>
      match s with
      | String c r =>
          if p c then map (cons_fst c) (m_rep p (Nat.pred lo) hi' r) else []
      | EmptyString => []
      end ++
      match lo with O => [(EmptyString, s)] | S _ => [] end
  end.

(** [x+], greedy. *)
Definition m_plus (p : ascii -> bool) : matcher string :=
  fun s => match s with
           | String c r =>
               if p c then map (cons_fst c) (m_star p r) else []
           | EmptyString => []
           end.

(** [$] without [re.MULTILINE]: the end of the string, or just before a
    newline that ends the string. *)
Definition newline : ascii := "010"%char.

Definition m_eos : matcher unit :=
  fun s => match s with
           | EmptyString => [(tt, s)]
           | String c EmptyString => if Ascii.eqb c newline then [(tt, s)] else []
           | _ => []
           end.

(** [re.match(pattern, s)]: the groups of the first match, if any. *)
Definition re_match {A : Type} (m : matcher A) (s : string) : option A :=
  match m s with
  | [] => None
  | (a, _) :: _ => Some a
  end.

(** The classes "\d" and ".". *)
Definition is_digit (c : ascii) : bool :=
  (48 <=? nat_of_ascii c)%nat && (nat_of_ascii c <=? 57)%nat.

Definition any_char (c : ascii) : bool := negb (Ascii.eqb c newline).

Definition one_of (cs : string) (c : ascii) : bool :=
  existsb (Ascii.eqb c) (list_ascii_of_string cs).

(** ** Filename identity parser *)

(** SAMPLE_PATTERN: group 1 (any characters, greedy) is the sample name
    from the sample sheet, then "_", group 2 ("S" and one to four
    digits) is the cell number, "_", group 3 ("L" and one to three
    digits) is the lane number, "_", group 4 (one of "RI", one of "12")
    is the forward/reverse/index id, then any characters. *)
Definition SAMPLE_PATTERN : matcher (string * string * string * string) :=
  re name <- m_star any_char ;
  re _ <- m_lit "_" ;
  re _ <- m_lit "S" ;
  re cell <- m_rep is_digit 1 4 ;
  re _ <- m_lit "_" ;
  re _ <- m_lit "L" ;
  re lane <- m_rep is_digit 1 3 ;
  re _ <- m_lit "_" ;
  re d <- m_class (one_of "RI") ;
  re n <- m_class (one_of "12") ;
  re _ <- m_star any_char ;
  m_ret (name, String "S"%char cell, String "L"%char lane,
         String d (String n EmptyString)).

(** [s[1:]] *)
Definition drop_first (s : string) : string :=
  match s with
  | EmptyString => EmptyString
  | String _ r => r
  end.

(** [s.lstrip(c)] for a single character [c]. *)
Fixpoint lstrip (c : ascii) (s : string) : string :=
  match s with
  | String a r => if Ascii.eqb a c then lstrip c r else s
  | EmptyString => EmptyString
  end.

Definition _extract_name_and_lane (filename : string)
    : result (string * string) :=
  match re_match SAMPLE_PATTERN filename with
  | None => Raise (ValueError ("Unrecognized filename pattern " +:+ filename))
  | Some (name, _, lane, _) =>
      (* remove the leading L and any leading zeroes *)
      Ok (name, lstrip "0"%char (drop_first lane))
  end.

(** ** Numbers

    A [float64] of the program: NaN, an infinity, or a finite value. *)

Inductive float64 : Type :=
| NaN
| Inf (negative : bool)
| Fin (q : Q).

(** What a log parser returns: a Python [int] or a Python [float]. *)
Inductive pynum : Type :=
| PyInt (z : Z)
| PyFloat (x : float64).

Definition float_of_int (z : Z) : float64 := Fin (inject_Z z).

(** [.astype('float64')] on one value. *)
Definition astype_float64 (n : pynum) : float64 :=
  match n with
  | PyInt z => float_of_int z
  | PyFloat x => x
  end.

Definition Qneg_bool (q : Q) : bool := negb (Qle_bool 0 q).

(** Division of two [float64] as numpy does it elementwise: no
    exception, [x / 0] is an infinity for [x <> 0] and NaN for [x = 0],
    and NaN propagates. *)
Definition fdiv (x y : float64) : float64 :=
  match x, y with
  | NaN, _ => NaN
  | _, NaN => NaN
  | Inf _, Inf _ => NaN
  | Inf s, Fin b => Inf (xorb s (Qneg_bool b))
  | Fin _, Inf _ => Fin 0
  | Fin a, Fin b =>
      if Qeq_bool b 0 then
        if Qeq_bool a 0 then NaN else Inf (Qneg_bool a)
      else Fin (Qred (a / b))
  end.

Definition isna (x : float64) : bool :=
  match x with
  | NaN => true
  | _ => false
  end.

(** The conversion of an [int] to a [float], as in [n / 2.0]: the
    nearest [float64], a tie going to the even significand of 53 bits,
    and an [OverflowError] when that is beyond the range. *)
Definition round_half_even (z : Z) : Z :=
  let a := Z.abs z in
  let e := (Z.log2 a - 52)%Z in
  if (e <=? 0)%Z then z
  else
    let ulp := (2 ^ e)%Z in
    let q := (a / ulp)%Z in
    let r := (a mod ulp)%Z in
    let m :=
      if (ulp <? 2 * r)%Z || ((2 * r =? ulp)%Z && Z.odd q) then (q + 1)%Z
      else q in
    (Z.sgn z * (m * ulp))%Z.

Definition int_to_float (z : Z) : result float64 :=
  let r := round_half_even z in
  if (2 ^ 1024 <=? Z.abs r)%Z
  then Raise (OverflowError "int too large to convert to float")
  else Ok (float_of_int r).

(** The product of two [int64], as numpy computes it: modulo 2^64. *)
Definition wrap_int64 (z : Z) : Z := ((z + 2 ^ 63) mod 2 ^ 64 - 2 ^ 63)%Z.

(** The value of a string of decimal digits. *)
Definition digit_value (c : ascii) : Z := Z.of_nat (nat_of_ascii c) - 48.

Fixpoint int_of_digits (acc : Z) (s : string) : Z :=
  match s with
  | EmptyString => acc
  | String c r => int_of_digits (10 * acc + digit_value c) r
  end.

(** [str(z)] for an [int]. *)
Definition str (z : Z) : string := NilZero.string_of_int (Z.to_int z).

(** ** Paths *)

Definition sep : ascii := "/"%char.

Definition startswith (c : ascii) (s : string) : bool :=
  match s with
  | String a _ => Ascii.eqb a c
  | EmptyString => false
  end.

Fixpoint endswith (c : ascii) (s : string) : bool :=
  match s with
  | EmptyString => false
  | String a EmptyString => Ascii.eqb a c
  | String _ r => endswith c r
  end.

(** One step of [os.path.join]: a component that starts with [/]
    replaces the path; otherwise it is appended, after a [/] unless the
    path is empty or already ends with one. *)
Definition join2 (path b : string) : string :=
  if startswith sep b then b
  else if (path =? "")%string || endswith sep path then path +:+ b
  else path +:+ String sep b.

Definition join (a : string) (p : list string) : string :=
  fold_left join2 p a.

(** [os.path.basename]: what follows the last [/]. *)
Fixpoint basename (p : string) : string :=
  match p with
  | EmptyString => EmptyString
  | String c r =>
      if existsb (Ascii.eqb sep) (list_ascii_of_string r) then basename r
      else if Ascii.eqb c sep then r
      else p
  end.

Fixpoint replicate_char (n : nat) (c : ascii) : string :=
  match n with
  | O => EmptyString
  | S n' => String c (replicate_char n' c)
  end.

(** [s.zfill(width)]: zeros on the left, after a leading sign. *)
Definition zfill (width : nat) (s : string) : string :=
  let pad := replicate_char (width - String.length s) "0"%char in
  match s with
  | String c r =>
      if Ascii.eqb c "+"%char || Ascii.eqb c "-"%char
      then String c (pad +:+ r)
      else pad +:+ s
  | EmptyString => pad
  end.

(** The truth value of a [str] in a condition. *)
Definition truthy (s : string) : bool := negb (s =? "")%string.

(** ** Values

    A value that [json.load] returns, or the text of a group of a
    pattern: [None], a [bool], an [int], a [float], a [str], a [list],
    or a [dict] with [str] keys, each key once. *)
#[warnings="-register-all"]
Inductive value : Type :=
| VNone
| VBool (b : bool)
| VInt (z : Z)
| VFloat (x : float64)
| VStr (s : string)
| VList (items : list value)
| VDict (fields : list (string * value)).

Definition type_name (v : value) : string :=
  match v with
  | VNone => "NoneType"
  | VBool _ => "bool"
  | VInt _ => "int"
  | VFloat _ => "float"
  | VStr _ => "str"
  | VList _ => "list"
  | VDict _ => "dict"
  end.

(** [p in s] for two [str]. *)
Fixpoint is_substring (p s : string) : bool :=
  match strip_prefix p s with
  | Some _ => true
  | None =>
      match s with
      | EmptyString => false
      | String _ r => is_substring p r
      end
  end.

Definition is_str (key : string) (v : value) : bool :=
  match v with
  | VStr s => (s =? key)%string
  | _ => false
  end.

(** [d[key]] for a [dict]. *)
Fixpoint dict_get (key : string) (fields : list (string * value))
    : option value :=
  match fields with
  | [] => None
  | (k, v) :: fields' =>
      if (k =? key)%string then Some v else dict_get key fields'
  end.

(** [key in v] *)
Definition contains (key : string) (v : value) : result bool :=
  match v with
  | VDict fields =>
      Ok (match dict_get key fields with Some _ => true | None => false end)
  | VStr s => Ok (is_substring key s)
  | VList items => Ok (existsb (is_str key) items)
  | _ =>
      Raise (TypeError ("argument of type '" +:+ type_name v
                        +:+ "' is not iterable"))
  end.

(** [v[key]] for a [str] key. *)
Definition getitem (v : value) (key : string) : result value :=
  match v with
  | VDict fields =>
      match dict_get key fields with
      | Some x => Ok x
      | None => Raise (KeyError key)
      end
  | VStr _ => Raise (TypeError "string indices must be integers, not 'str'")
  | VList _ =>
      Raise (TypeError "list indices must be integers or slices, not str")
  | _ => Raise (TypeError ("'" +:+ type_name v
                           +:+ "' object is not subscriptable"))
  end.

(** [repr(s)] for a [str]: between single quotes, or double quotes when
    it holds a single quote and no double one; the quote and the
    backslash escaped, and every character that is not printable. *)
Definition double_quote : ascii := "034"%char.
Definition backslash : ascii := "092"%char.

Definition printable (c : ascii) : bool :=
  let n := nat_of_ascii c in
  (32 <=? n)%nat && (n <=? 126)%nat
  || (161 <=? n)%nat && negb (n =? 173)%nat.

Definition hex_digit (n : nat) : ascii :=
  match String.get n "0123456789abcdef" with
  | Some c => c
  | None => "0"%char
  end.

Definition escape (quote c : ascii) : string :=
  if Ascii.eqb c quote || Ascii.eqb c backslash then
    String backslash (String c "")
  else if Ascii.eqb c "009" then String backslash "t"
  else if Ascii.eqb c "010" then String backslash "n"
  else if Ascii.eqb c "013" then String backslash "r"
  else if printable c then String c ""
  else
    String backslash
      (String "x" (String (hex_digit (nat_of_ascii c / 16))
                     (String (hex_digit (nat_of_ascii c mod 16)) ""))).

Definition has_char (c : ascii) (s : string) : bool :=
  existsb (Ascii.eqb c) (list_ascii_of_string s).

Definition repr (s : string) : string :=
  let quote :=
    if has_char "'" s && negb (has_char double_quote s) then double_quote
    else "'"%char in
  String quote
    (String.concat "" (map (escape quote) (list_ascii_of_string s))
     +:+ String quote "").

(** [int(s)] for a [str], in base 10: white space around, a sign, and
    digits, between which single underscores may stand.  More than 4300
    digits are refused. *)
Definition int_space (c : ascii) : bool :=
  let n := nat_of_ascii c in
  (9 <=? n)%nat && (n <=? 13)%nat || (n =? 32)%nat
  || (n =? 133)%nat || (n =? 160)%nat.

Fixpoint lstrip_spaces (s : string) : string :=
  match s with
  | String a r => if int_space a then lstrip_spaces r else s
  | EmptyString => EmptyString
  end.

(** The digits of the run of digits and underscores that starts [s],
    and what follows the run; nothing when an underscore is not
    followed by a digit. *)
Fixpoint scan_digits (s : string) : option (string * string) :=
  match s with
  | String c r =>
      if is_digit c then
        match scan_digits r with
        | Some (ds, rest) => Some (String c ds, rest)
        | None => None
        end
      else if Ascii.eqb c "_" then
        match r with
        | String c' _ => if is_digit c' then scan_digits r else None
        | EmptyString => None
        end
      else Some (EmptyString, s)
  | EmptyString => Some (EmptyString, EmptyString)
  end.

Definition int_max_str_digits : nat := 4300.

Definition int_of_str (s : string) : result Z :=
  let invalid :=
    Raise (ValueError ("invalid literal for int() with base 10: "
                       +:+ String.substring 0 200 (repr s))) in
  let s1 := lstrip_spaces s in
  let '(negative, s2) :=
    match s1 with
    | String c r =>
        if Ascii.eqb c "-" then (true, r)
        else if Ascii.eqb c "+" then (false, r)
        else (false, s1)
    | EmptyString => (false, s1)
    end in
  if startswith "_" s2 then invalid
  else
    match scan_digits s2 with
    | None => invalid
    | Some (ds, rest) =>
        if (ds =? "")%string then invalid
        else if (int_max_str_digits <? String.length ds)%nat then
          Raise (ValueError
                   ("Exceeds the limit (4300 digits) for integer string conversion: value has "
                    +:+ str (Z.of_nat (String.length ds))
                    +:+ " digits; use sys.set_int_max_str_digits() to increase the limit"))
        else if (lstrip_spaces rest =? "")%string then
          Ok (if negative then (- int_of_digits 0 ds)%Z
              else int_of_digits 0 ds)
        else invalid
    end.

(** [int(v)] *)
Definition int (v : value) : result Z :=
  match v with
  | VInt z => Ok z
  | VBool b => Ok (if b then 1 else 0)%Z
  | VFloat NaN => Raise (ValueError "cannot convert float NaN to integer")
  | VFloat (Inf _) =>
      Raise (OverflowError "cannot convert float infinity to integer")
  | VFloat (Fin q) => Ok (Z.quot (Qnum q) (Z.pos (Qden q)))
  | VStr s => int_of_str s
  | _ =>
      Raise (TypeError
               ("int() argument must be a string, a bytes-like object or a real number, not '"
                +:+ type_name v +:+ "'"))
  end.

(** ** The sample manifest and the collaborators *)

Record sample : Type := {
  Sample_ID : string;
  Sample_Project : string;
  Lane : string
}.

(** [metadata]: a [metapool.KLSampleSheet], or a mapping file (amplicon),
    which the counts do not support. *)
Inductive metadata : Type :=
| KLSampleSheet (samples : list sample)
| MappingFile.

(** [Stats/Stats.json] of bcl2fastq. *)
Record demux_result : Type := { SampleId : string; NumberReads : Z }.
Record conversion_result : Type := {
  DemuxResults : option (list demux_result);
  LaneNumber : option Z
}.
Record stats_json : Type := {
  ConversionResults : option (list conversion_result)
}.

(** A line of [Reports/Demultiplex_Stats.csv] of bcl-convert, reduced
    to the columns "SampleID", "Lane" and "# Reads"; the last two are
    columns of [int64]. *)
Record demultiplex_stat : Type := {
  SampleID : string;
  csv_Lane : Z;
  Reads : Z
}.

(** A FASTQ record; only the number of records matters. *)
Definition sequence : Type := string.

Record world : Type := {
  (** [os.path.abspath] and [os.path.exists] *)
  abspath : string -> string;
  path_exists : string -> bool;
  (** [glob.glob] *)
  glob : string -> list string;
  (** [open(path).read()] *)
  read : string -> string;
  (** [json.load] of a fastp report and of [Stats.json] *)
  load_fastp : string -> value;
  load_stats : string -> stats_json;
  (** [pd.read_csv] *)
  read_csv : string -> list demultiplex_stat;
  (** how pandas prints the (Sample_ID, Lane) keys of an index in the
      message of an exception *)
  index_repr : list (string * string) -> string;
  (** [skbio.io.read(path, format='fastq', variant=...)], iterated to
      its end: the records, or the exception raised on the way *)
  skb_read : string -> string -> result (list sequence)
}.

(** ** Format parsers *)

Definition _parse_fastp_counts (w : world) (path : string) : result pynum :=
  let stats := load_fastp w path in
  let malformed : result pynum :=
    Raise (ValueError ("The fastp log for " +:+ path +:+ " is malformed")) in
  (* check all the required keys are present, otherwise the file could
     be malformed; each test is made only when the one before it found
     its key *)
  let* has_summary := contains "summary" stats in
  if negb has_summary then malformed
  else
    let* summary := getitem stats "summary" in
    let* has_after_filtering := contains "after_filtering" summary in
    if negb has_after_filtering then malformed
    else
      let* after_filtering := getitem summary "after_filtering" in
      let* has_total_reads := contains "total_reads" after_filtering in
      if negb has_total_reads then malformed
      else
        let* total_reads := getitem after_filtering "total_reads" in
        let* n := int total_reads in
        Ok (PyInt n).

(** SAMTOOLS_PATTERN: "[", any characters (greedy), "] processed ",
    group 1 (one or more digits), " reads".  Group 1 is the number of
    sequences written to the forward and reverse files. *)
Definition SAMTOOLS_PATTERN : matcher string :=
  re _ <- m_lit "[" ;
  re _ <- m_star any_char ;
  re _ <- m_lit "] processed " ;
  re n <- m_plus is_digit ;
  re _ <- m_lit " reads" ;
  m_ret n.

Definition _parse_samtools_counts (w : world) (path : string)
    : result pynum :=
  match re_match SAMTOOLS_PATTERN (read w path) with
  | None =>
      Raise (ValueError ("The samtools log for " +:+ path +:+ " is malformed"))
  | Some n =>
      let* count := int (VStr n) in
      (* divided by 2 because samtools outputs the number of records
         found in the forward and reverse files *)
      let* x := int_to_float count in
      Ok (PyFloat (fdiv x (Fin 2)))
  end.

(** ** Tables

    A table indexed by the composite key (Sample_ID, Lane): the rows in
    order, each with its key. *)

Definition key : Type := string * string.

Definition table (V : Type) : Type := list (key * V).

(** [index[index.duplicated()]]: every key that already occurred
    before in the index. *)
Fixpoint duplicated_keys (seen : list key) (ks : list key) : list key :=
  match ks with
  | [] => []
  | k :: ks' =>
      if bool_decide (k ∈ seen) then k :: duplicated_keys seen ks'
      else duplicated_keys (k :: seen) ks'
  end.

(** [index.unique()]: each key once, in the order of first
    occurrence. *)
Fixpoint unique (seen : list key) (ks : list key) : list key :=
  match ks with
  | [] => []
  | k :: ks' =>
      if bool_decide (k ∈ seen) then unique seen ks'
      else k :: unique (k :: seen) ks'
  end.

(** [df.set_index([...], verify_integrity=True)] *)
Definition set_index {V : Type} (w : world) (rows : list (key * V))
    : result (table V) :=
  if bool_decide (NoDup (map fst rows)) then Ok rows
  else
    let duplicates := unique [] (duplicated_keys [] (map fst rows)) in
    Raise (ValueError ("Index has duplicate keys: "
                       +:+ index_repr w duplicates)).

Fixpoint table_lookup {V : Type} (k : key) (t : table V) : option V :=
  match t with
  | [] => None
  | (k', v) :: t' => if bool_decide (k' = k) then Some v else table_lookup k t'
  end.

(** The writer of warnings around [result]. *)
Definition warned (A : Type) : Type := list string * result A.

Definition wbind {A B : Type} (m : warned A) (k : A -> warned B) : warned B :=
  match m with
  | (ws, Ok a) => let (ws', r) := k a in (ws ++ ws', r)
  | (ws, Raise e) => (ws, Raise e)
  end.

Definition quiet {A : Type} (r : result A) : warned A := ([], r).

Notation "'let!' x ':=' m 'in' k" := (wbind m (fun x => k))
  (at level 10, x name, m at level 100, k at level 200).

(** [[f(x) for x in xs]], stopping at the first exception. *)
Fixpoint map_result {A B : Type} (f : A -> result B) (xs : list A)
    : result (list B) :=
  match xs with
  | [] => Ok []
  | x :: xs' =>
      let* y := f x in
      let* ys := map_result f xs' in
      Ok (y :: ys)
  end.

(** ** Log locator *)

Module Log.
Record row : Type := {
  Sample_ID : string;
  Lane : string;
  Sample_Project : string;
  path : string
}.
End Log.

Definition projects_of (samples : list sample) : gset (string * string) :=
  list_to_set (map (fun s => (Sample_Project s, Lane s)) samples).

Definition expected_of (samples : list sample) : gset string :=
  list_to_set (map Sample_ID samples).

(** The body of the loop over [projects]: glob the logs of one project
    and lane, and append a row for each. *)
Definition locate_logs (w : world) (run_dir subdir suffix : string)
    (out : list Log.row) (pl : string * string) : result (list Log.row) :=
  let project := fst pl in
  let lane := zfill 3 (snd pl) in
  let logs :=
    glob w (join run_dir
              [project; subdir; "*_L" +:+ lane +:+ "_R1_001" +:+ suffix]) in
  for_each
    (fun out log =>
       let* nl := _extract_name_and_lane (basename log) in
       Ok (out ++ [{| Log.Sample_ID := fst nl; Log.Lane := snd nl;
                      Log.Sample_Project := project; Log.path := log |}]))
    logs out.

Definition log_key (r : Log.row) : key := (Log.Sample_ID r, Log.Lane r).

(** [out[out.duplicated(subset=['Sample_ID', 'Lane'])]]: every row whose
    key already occurred in an earlier row. *)
Fixpoint duplicated (seen : list key) (rows : list Log.row) : list Log.row :=
  match rows with
  | [] => []
  | r :: rows' =>
      if bool_decide (log_key r ∈ seen)
      then r :: duplicated (log_key r :: seen) rows'
      else duplicated (log_key r :: seen) rows'
  end.

Definition pair_text (r : Log.row) : string :=
  Log.Sample_ID r +:+ " in lane " +:+ Log.Lane r.

Definition multiple_matches (dups : list Log.row) : string :=
  "Multiple matches found for the same samples in the same lane, only one match is expected: "
  +:+ String.concat ", " (map pair_text dups).

Definition no_log_found (name : string) (missing : gset string) : string :=
  "No " +:+ name +:+ " log found for these samples: "
  +:+ String.concat ", " (elements missing).

Definition _parsefier (w : world) (run_dir : string) (md : metadata)
    (subdir suffix name : string) (funk : string -> result pynum)
    : warned (table float64) :=
  match md with
  | MappingFile => quiet (Raise (ValueError "counts not implemented for amplicon"))
  | KLSampleSheet samples =>
      let projects := projects_of samples in
      let expected := expected_of samples in
      let! out :=
        quiet (for_each (locate_logs w run_dir subdir suffix)
                 (elements projects) []) in
      let found : gset string := list_to_set (map Log.Sample_ID out) in
      (* ignore the things not present in the sheet *)
      let out := filter (fun r => Log.Sample_ID r ∈ expected) out in
      let dups := duplicated [] out in
      match dups with
      | _ :: _ => quiet (Raise (ValueError (multiple_matches dups)))
      | [] =>
          let! _ :=
            (if bool_decide (found ⊂ expected)
             then [no_log_found name (expected ∖ found)] else [],
             Ok tt) in
          quiet
            (let* rows :=
               map_result
                 (fun r =>
                    let* n := funk (Log.path r) in
                    Ok (log_key r, astype_float64 n))
                 out in
             set_index w rows)
      end
  end.

(** ** Demultiplex counts *)

(** Prevent generic KeyError exceptions. *)
Definition _safe_get {A : Type} (field : option A) (_key : string)
    : result A :=
  match field with
  | None => Raise (KeyError ("bcl stats file is missing " +:+ _key +:+ " attribute"))
  | Some v => Ok v
  end.

Definition _bcl2fastq_counts (w : world) (path : string) : result (table Z) :=
  let contents := load_stats w path in
  let* lanes := _safe_get (ConversionResults contents) "ConversionResults" in
  let* out :=
    for_each
      (fun out lane =>
         let* results := _safe_get (DemuxResults lane) "DemuxResults" in
         let* number := _safe_get (LaneNumber lane) "LaneNumber" in
         Ok (out ++ [map (fun d => ((SampleId d, str number), NumberReads d))
                       results]))
      lanes [] in
  match out with
  | [] => Raise (ValueError "No objects to concatenate")
  | _ :: _ =>
      match concat out with
      | [] => Raise (KeyError "['Sample_ID', 'raw_reads_r1r2'] not in index")
      | rows => set_index w rows
      end
  end.

Definition _bclconvert_counts (w : world) (path : string) : result (table Z) :=
  (* read the csv in from file *)
  let df := read_csv w path in
  (* filter out rows that reference an 'Undetermined' fastq.gz file *)
  let df := filter (fun r => SampleID r ≠ "Undetermined") df in
  (* double # Reads to represent forward and reverse reads *)
  set_index w
    (map (fun r => ((SampleID r, str (csv_Lane r)), wrap_int64 (Reads r * 2)))
       df).

Definition bcl2fastq_counts (w : world) (run_dir : string)
    (sample_sheet : metadata) : result (table Z) :=
  let bcl2fastq_path := join (abspath w run_dir) ["Stats/Stats.json"] in
  let bclconvert_path :=
    join (abspath w run_dir) ["Reports/Demultiplex_Stats.csv"] in
  if path_exists w bcl2fastq_path then
    if path_exists w bclconvert_path then
      Raise (IOError ("both '" +:+ bcl2fastq_path +:+ "' and '"
                      +:+ bclconvert_path +:+ "' exist"))
    else _bcl2fastq_counts w bcl2fastq_path
  else if path_exists w bclconvert_path then
    _bclconvert_counts w bclconvert_path
  else
    Raise (IOError ("Cannot find Stats.json '" +:+ bcl2fastq_path
                    +:+ "' or Demultiplex_Stats.csv '" +:+ bclconvert_path
                    +:+ "' for this run")).

(** ** Trim and host-filter counts *)

Definition fastp_counts (w : world) (run_dir : string) (md : metadata)
    : warned (table float64) :=
  _parsefier w run_dir md "json" ".json" "total_biological_reads_r1r2"
    (_parse_fastp_counts w).

Definition minimap2_counts (w : world) (run_dir : string) (md : metadata)
    : warned (table float64) :=
  _parsefier w run_dir md "samtools" ".log" "non_host_reads"
    (_parse_samtools_counts w).

(** ** Direct sequence counter *)

Definition variants : list string := ["illumina1.8"; "illumina1.3"; "sanger"].

(** The loop over the variants: a [ValueError] is taken to mean that the
    variant was not the right one, and the next is tried; any other
    exception leaves the function. *)
Fixpoint try_variants (w : world) (file_path : string) (vs : list string)
    : result Z :=
  match vs with
  | [] => Raise (ValueError ("'" +:+ file_path +:+ " could not be opened"))
  | variant :: vs' =>
      match skb_read w file_path variant with
      | Ok sequences => Ok (Z.of_nat (length sequences))
      | Raise (ValueError _) => try_variants w file_path vs'
      | Raise e => Raise e
      end
  end.

Definition count_sequences_in_fastq (w : world) (file_path : string)
    : result Z :=
  try_variants w file_path variants.

(** ** Direct counts *)

(** [zip(it, it)] over one iterator [it]: consecutive pairs; a last
    element without a partner ends the iteration. *)
Fixpoint pairs {A : Type} (l : list A) : list (A * A) :=
  match l with
  | a :: b :: l' => (a, b) :: pairs l'
  | _ => []
  end.

(** [sorted] on strings. *)
Definition sorted (l : list string) : list string := merge_sort String.le l.

(** The pattern of a trimmed FASTQ file: group 1 (any characters,
    greedy) is the sample id, then "_S" and digits, "_L" and three
    digits, "_R" and a digit, "_" and three digits, and
    ".trimmed.fastq.gz" with each "." standing for any character, up to
    the end of the name. *)
Definition reg : matcher string :=
  re name <- m_star any_char ;
  re _ <- m_lit "_S" ;
  re _ <- m_plus is_digit ;
  re _ <- m_lit "_L" ;
  re _ <- m_rep is_digit 3 3 ;
  re _ <- m_lit "_R" ;
  re _ <- m_class is_digit ;
  re _ <- m_lit "_" ;
  re _ <- m_rep is_digit 3 3 ;
  re _ <- m_class any_char ;
  re _ <- m_lit "trimmed" ;
  re _ <- m_class any_char ;
  re _ <- m_lit "fastq" ;
  re _ <- m_class any_char ;
  re _ <- m_lit "gz" ;
  re _ <- m_eos ;
  m_ret name.

(** The choice of the directory of one project. *)
Definition sequences_subdir (run_dir project : string) : result string :=
  if truthy (join run_dir ["filtered_sequences"]) then
    Ok (join run_dir [project; "filtered_sequences"])
  else if truthy (join run_dir ["trimmed_sequences"]) then
    Ok (join run_dir [project; "trimmed_sequences"])
  else
    Raise (ValueError
             "'filtered_sequences', 'trimmed_sequences' directories do not exist").

(** One forward and reverse pair: a row for the table. *)
Definition count_pair (w : world) (lane : string)
    (rows : list (key * float64)) (r1r2 : string * string)
    : result (list (key * float64)) :=
  let r1 := fst r1r2 in
  let r2 := snd r1r2 in
  match re_match reg (basename r1), re_match reg (basename r2) with
  | Some m_r1, Some m_r2 =>
      if bool_decide (m_r1 ≠ m_r2) then
        Raise (ValueError ("a matching sample-id could not be extracted from "
                           +:+ r1 +:+ " and " +:+ r2))
      else
        let sample_id := m_r1 in
        let* r1_counts := count_sequences_in_fastq w r1 in
        let* r2_counts := count_sequences_in_fastq w r2 in
        Ok (rows ++ [((sample_id, lane), float_of_int (r1_counts + r2_counts))])
  | _, _ =>
      Raise (ValueError ("a sample-id could not be extracted from "
                         +:+ r1 +:+ " or " +:+ r2))
  end.

(** The body of the loop over [projects]. *)
Definition count_project (w : world) (run_dir : string)
    (rows : list (key * float64)) (pl : string * string)
    : result (list (key * float64)) :=
  let project := fst pl in
  let lane := snd pl in
  let* subdir := sequences_subdir run_dir project in
  let fp :=
    join subdir ["*_L" +:+ zfill 3 lane +:+ "_R?_001.trimmed.fastq.gz"] in
  (* glob is going to return both _R1_ and _R2_ fastqs. sorted() will
     pair them such that we can iterate through them as a pair. *)
  for_each (count_pair w lane) (pairs (sorted (glob w fp))) rows.

Definition direct_sequence_counts (w : world) (run_dir : string)
    (md : metadata) : result (table float64) :=
  match md with
  | MappingFile => Raise (ValueError "counts not implemented for amplicon")
  | KLSampleSheet samples =>
      let projects := projects_of samples in
      let* rows := for_each (count_project w run_dir) (elements projects) [] in
      set_index w rows
  end.

(** ** Run aggregator *)

(** A cell of the final table: the marker "NA" or a number. *)
Inductive cell : Type :=
| NA
| Num (x : float64).

Record run_row : Type := {
  index : key;
  raw_reads_r1r2 : cell;
  total_biological_reads_r1r2 : cell;
  non_host_reads : cell;
  quality_filtered_reads_r1r2 : cell;
  fraction_passing_quality_filter : cell;
  fraction_non_human : cell
}.

(** The value a left join gives a row of the left table in a column of
    another table: the value under the same key, or missing (NaN). *)
Definition joined (t : table float64) (k : key) : float64 :=
  match table_lookup k t with
  | Some x => x
  | None => NaN
  end.

(** [fillna(value='NA')] on one cell. *)
Definition fillna (x : float64) : cell := if isna x then NA else Num x.

(** The join of the four tables on the demultiplex table, the two
    convenience columns and [fillna], row by row. *)
Definition aggregate_row (fastp minimap2 direct : table float64)
    (kv : key * Z) : run_row :=
  let k := fst kv in
  let raw := float_of_int (snd kv) in
  let total_biological := joined fastp k in
  let non_host := joined minimap2 k in
  let quality_filtered := joined direct k in
  (* convenience columns to assess sample quality *)
  let ratio := fdiv quality_filtered raw in
  {| index := k;
     raw_reads_r1r2 := fillna raw;
     total_biological_reads_r1r2 := fillna total_biological;
     non_host_reads := fillna non_host;
     quality_filtered_reads_r1r2 := fillna quality_filtered;
     fraction_passing_quality_filter := fillna ratio;
     fraction_non_human := fillna (fdiv non_host quality_filtered) |}.

Definition aggregate (demux : table Z) (fastp minimap2 direct : table float64)
    : list run_row :=
  map (aggregate_row fastp minimap2 direct) demux.

Definition run_counts (w : world) (run_dir : string) (md : metadata)
    : warned (list run_row) :=
  let! demux := quiet (bcl2fastq_counts w run_dir md) in
  let! fastp := fastp_counts w run_dir md in
  let! minimap2 := minimap2_counts w run_dir md in
  let! direct := quiet (direct_sequence_counts w run_dir md) in
  quiet (Ok (aggregate demux fastp minimap2 direct)).

(** ** The conventions and the reports, as the specification words them *)

(** Every character of [s] is in the class [p]. *)
Fixpoint all_of (p : ascii -> bool) (s : string) : bool :=
  match s with
  | EmptyString => true
  | String c r => p c && all_of p r
  end.

(** The naming convention of a sequencing file: the sample name, "_S"
    and the cell number (one to four digits), "_L" and the lane (one to
    three digits), "_", one of "RI", one of "12", and anything after. *)
Definition filename_convention (filename name cell lane : string)
    (d n : ascii) (rest : string) : Prop :=
  filename = name +:+ "_S" +:+ cell +:+ "_L" +:+ lane +:+ "_"
               +:+ String d (String n rest) /\
  all_of any_char name = true /\
  all_of is_digit cell = true /\ 1 <= String.length cell <= 4 /\
  all_of is_digit lane = true /\ 1 <= String.length lane <= 3 /\
  one_of "RI" d = true /\ one_of "12" n = true.

(** A samtools log: "[", a text without newline, "] processed ", the
    count in digits, " reads", and anything after. *)
Definition samtools_log (content bracket digits rest : string) : Prop :=
  content = "[" +:+ bracket +:+ "] processed " +:+ digits +:+ " reads"
              +:+ rest /\
  all_of any_char bracket = true /\
  all_of is_digit digits = true /\ digits <> "".

(** [digits] writes the number [N] in decimal: the numeral of [N],
    after any number of zeros. *)
Definition decimal (digits : string) (N : Z) : Prop :=
  (0 <= N)%Z /\
  exists zeros, digits = replicate_char zeros "0" +:+ str N.

(** The rows the tabular report stands for: every line but those of the
    "Undetermined" pseudo-sample, keyed by the sample and the lane as a
    string, with the reads doubled (in [int64]). *)
Definition bclconvert_rows (lines : list demultiplex_stat) : table Z :=
  map (fun r => ((SampleID r, str (csv_Lane r)), wrap_int64 (Reads r * 2)))
    (filter (fun r => SampleID r ≠ "Undetermined") lines).

(** The rows of one lane block of the structured report, when it has
    its two keys. *)
Definition conversion_rows (lane : conversion_result) : table Z :=
  match DemuxResults lane, LaneNumber lane with
  | Some results, Some number =>
      map (fun d => ((SampleId d, str number), NumberReads d)) results
  | _, _ => []
  end.

Definition complete_lane (lane : conversion_result) : Prop :=
  is_Some (DemuxResults lane) /\ is_Some (LaneNumber lane).

(** The lane of a key is a lane number written as a string. *)
Definition lane_as_string {V : Type} (kv : key * V) : Prop :=
  exists lane : Z, snd (fst kv) = str lane.

(** The value of a row is a count: a natural number as a [float64]. *)
Definition counted (kx : key * float64) : Prop :=
  exists c : Z, (0 <= c)%Z /\ snd kx = float_of_int c.

(** ** The stages of the log locator, by name *)

(** The rows of every log found, in the order of the loop. *)
Definition located_logs (w : world) (run_dir : string) (samples : list sample)
    (subdir suffix : string) : result (list Log.row) :=
  for_each (locate_logs w run_dir subdir suffix)
    (elements (projects_of samples)) [].

(** The sample names found, before anything is ignored. *)
Definition found_of (out : list Log.row) : gset string :=
  list_to_set (map Log.Sample_ID out).

(** The rows kept: those of the samples of the sheet. *)
Definition retained (samples : list sample) (out : list Log.row)
    : list Log.row :=
  filter (fun r => Log.Sample_ID r ∈ expected_of samples) out.

(** The counts of the rows kept, and the index. *)
Definition parsed (w : world) (funk : string -> result pynum)
    (rows : list Log.row) : result (table float64) :=
  let* counts :=
    map_result
      (fun r => let* n := funk (Log.path r) in Ok (log_key r, astype_float64 n))
      rows in
  set_index w counts.

(** ** Example runs *)

(** A function on strings given by a table, with a default. *)
Fixpoint table_of {V : Type} (d : V) (l : list (string * V)) (k : string) : V :=
  match l with
  | [] => d
  | (k', v) :: l' => if bool_decide (k' = k) then v else table_of d l' k
  end.

(** [n] FASTQ records. *)
Definition records (n : nat) : list sequence := repeat "@read" n.

(** A sample sheet with the one sample S1 of project P in lane 1. *)
Definition samples_S1 : list sample :=
  [ {| Sample_ID := "S1"; Sample_Project := "P"; Lane := "1" |} ].

Definition sheet_S1 : metadata := KLSampleSheet samples_S1.

(** A run where project P has only the directory [trimmed_sequences],
    with the forward and reverse files of S1; [filtered_sequences] does
    not exist, so no pattern under it matches anything. *)
Definition run_only_trimmed : world := {|
  abspath := fun p => "/data/" +:+ p;
  path_exists := fun p =>
    bool_decide (p ∈ ["run/P/trimmed_sequences";
                      "run/P/trimmed_sequences/S1_S1_L001_R1_001.trimmed.fastq.gz";
                      "run/P/trimmed_sequences/S1_S1_L001_R2_001.trimmed.fastq.gz"]);
  glob := table_of []
    [("run/P/trimmed_sequences/*_L001_R?_001.trimmed.fastq.gz",
      ["run/P/trimmed_sequences/S1_S1_L001_R1_001.trimmed.fastq.gz";
       "run/P/trimmed_sequences/S1_S1_L001_R2_001.trimmed.fastq.gz"])];
  read := fun _ => "";
  load_fastp := fun _ => VDict [];
  load_stats := fun _ => {| ConversionResults := None |};
  read_csv := fun _ => [];
  index_repr := fun _ => "";
  skb_read := fun _ _ => Ok (records 40)
|}.

(** A run whose [filtered_sequences] of project P holds three files for
    lane 1: the pair of S1 and a forward file of S2 without its reverse
    file.  Every file is in the "sanger" encoding and has 40 records. *)
Definition run_three_files : world := {|
  abspath := fun p => "/data/" +:+ p;
  path_exists := fun _ => true;
  glob := table_of []
    [("run/P/filtered_sequences/*_L001_R?_001.trimmed.fastq.gz",
      ["run/P/filtered_sequences/S2_S2_L001_R1_001.trimmed.fastq.gz";
       "run/P/filtered_sequences/S1_S1_L001_R2_001.trimmed.fastq.gz";
       "run/P/filtered_sequences/S1_S1_L001_R1_001.trimmed.fastq.gz"])];
  read := fun _ => "";
  load_fastp := fun _ => VDict [];
  load_stats := fun _ => {| ConversionResults := None |};
  read_csv := fun _ => [];
  index_repr := fun _ => "";
  skb_read := fun _ variant =>
    if bool_decide (variant = "sanger") then Ok (records 40)
    else Raise (ValueError "Decoded Phred score is out of range")
|}.


Definition samples_S1_S2 : list sample :=
  [ {| Sample_ID := "S1"; Sample_Project := "P"; Lane := "1" |};
    {| Sample_ID := "S2"; Sample_Project := "P"; Lane := "1" |} ].

Definition fastp_report (n : Z) : value :=
  VDict [("summary",
          VDict [("after_filtering", VDict [("total_reads", VInt n)])])].

(** A run with the given fastp reports, each with 90 reads after
    filtering. *)
Definition run_with_reports (reports : list (string * list string)) : world := {|
  abspath := fun p => "/data/" +:+ p;
  path_exists := fun _ => false;
  glob := table_of [] reports;
  read := fun _ => "";
  load_fastp := fun _ => fastp_report 90;
  load_stats := fun _ => {| ConversionResults := None |};
  read_csv := fun _ => [];
  index_repr := fun _ => "";
  skb_read := fun _ _ => Ok []
|}.

(** Demultiplexing was run twice: two reports of S1 in lane 1 that
    differ in the cell number. *)
Definition run_repeated_demux : world :=
  run_with_reports
    [("run/P/json/*_L001_R1_001.json",
      ["run/P/json/S1_S1_L001_R1_001.json";
       "run/P/json/S1_S2_L001_R1_001.json"])].


(** S1 has its report; S2 has none. *)
Definition run_missing_S2 : world :=
  run_with_reports
    [("run/P/json/*_L001_R1_001.json", ["run/P/json/S1_S1_L001_R1_001.json"])].

(** S1 has its report, S2 has none, and the directory also holds the
    report of S3, a sample that is not in the sheet. *)
Definition run_missing_S2_extra_S3 : world :=
  run_with_reports
    [("run/P/json/*_L001_R1_001.json",
      ["run/P/json/S1_S1_L001_R1_001.json";
       "run/P/json/S3_S3_L001_R1_001.json"])].

(** A whole run of the sample S1 of project P in lane 1: the tabular
    demultiplex report has one line with [reads] reads, the fastp
    report has 90 reads after filtering, the samtools log says 40
    reads, and each of the two filtered FASTQ files has 40 records. *)
Definition run_of_S1 (reads : Z) : world := {|
  abspath := fun p => "/data/" +:+ p;
  path_exists := fun p =>
    bool_decide (p = "/data/run/Reports/Demultiplex_Stats.csv");
  glob := table_of []
    [("run/P/json/*_L001_R1_001.json", ["run/P/json/S1_S1_L001_R1_001.json"]);
     ("run/P/samtools/*_L001_R1_001.log",
      ["run/P/samtools/S1_S1_L001_R1_001.log"]);
     ("run/P/filtered_sequences/*_L001_R?_001.trimmed.fastq.gz",
      ["run/P/filtered_sequences/S1_S1_L001_R1_001.trimmed.fastq.gz";
       "run/P/filtered_sequences/S1_S1_L001_R2_001.trimmed.fastq.gz"])];
  read := fun _ => "[M::main] processed 40 reads";
  load_fastp := fun _ => fastp_report 90;
  load_stats := fun _ => {| ConversionResults := None |};
  read_csv := fun _ =>
    [ {| SampleID := "S1"; csv_Lane := 1; Reads := reads |};
      {| SampleID := "Undetermined"; csv_Lane := 1; Reads := 7 |} ];
  index_repr := fun _ => "";
  skb_read := fun _ _ => Ok (records 40)
|}.

(** A character other than the underscore. *)
Definition no_underscore (c : ascii) : bool := negb (Ascii.eqb c "_").

(** The logs of one project and lane: what the [glob] of the locator
    returns. *)
Definition logs_of (w : world) (run_dir subdir suffix : string)
    (pl : string * string) : list string :=
  glob w (join run_dir
            [fst pl; subdir;
             "*_L" +:+ zfill 3 (snd pl) +:+ "_R1_001" +:+ suffix]).

(** A row of a log that was found for a project and lane of the sheet,
    with the name and the lane read from its file name. *)
Definition located (w : world) (run_dir subdir suffix : string)
    (samples : list sample) (r : Log.row) : Prop :=
  exists pl,
    pl ∈ projects_of samples /\
    In (Log.path r) (logs_of w run_dir subdir suffix pl) /\
    _extract_name_and_lane (basename (Log.path r)) =
      Ok (Log.Sample_ID r, Log.Lane r) /\
    Log.Sample_Project r = fst pl.

(** A report without cell number, and a host-filter log that is
    empty. *)
Definition run_unnumbered_report : world :=
  run_with_reports
    [("run/P/json/*_L001_R1_001.json", ["run/P/json/S1_L001_R1_001.json"])].

Definition run_empty_samtools_log : world :=
  run_with_reports
    [("run/P/samtools/*_L001_R1_001.log",
      ["run/P/samtools/S1_S1_L001_R1_001.log"])].

(** The files of one project and lane, as the direct counter pairs
    them: the sorted result of its [glob], two by two. *)
Definition fastq_pairs (w : world) (run_dir : string) (pl : string * string)
    : list (string * string) :=
  pairs
    (sorted
       (glob w
          (join (join run_dir [fst pl; "filtered_sequences"])
             ["*_L" +:+ zfill 3 (snd pl) +:+ "_R?_001.trimmed.fastq.gz"]))).

(** A row that stands for one pair of files of a project and lane of
    the sheet: its sample is the one both file names carry, its lane is
    the lane of the sheet, and its value is the number of records of
    the two files together. *)
Definition direct_row (w : world) (run_dir : string) (samples : list sample)
    (kv : key * float64) : Prop :=
  exists pl r1 r2 c1 c2,
    pl ∈ projects_of samples /\
    In (r1, r2) (fastq_pairs w run_dir pl) /\
    re_match reg (basename r1) = Some (fst (fst kv)) /\
    re_match reg (basename r2) = Some (fst (fst kv)) /\
    snd (fst kv) = snd pl /\
    count_sequences_in_fastq w r1 = Ok c1 /\
    count_sequences_in_fastq w r2 = Ok c2 /\
    (0 <= c1)%Z /\ (0 <= c2)%Z /\
    snd kv = float_of_int (c1 + c2).

(** A run whose host-filter logs open with a line of another tool,
    the summary of samtools coming second. *)
Definition run_log_with_header : world := {|
  abspath := fun p => "/data/" +:+ p;
  path_exists := fun _ => false;
  glob := fun _ => [];
  read := fun _ =>
    "minimap2 done" +:+ String newline "[M::main] processed 40 reads";
  load_fastp := fun _ => VDict [];
  load_stats := fun _ => {| ConversionResults := None |};
  read_csv := fun _ => [];
  index_repr := fun _ => "";
  skb_read := fun _ _ => Ok []
|}.


(** A run whose files are not FASTQ files: the reader raises its
    format error, which is no [ValueError], for every variant. *)
Definition run_not_fastq : world := {|
  abspath := fun p => "/data/" +:+ p;
  path_exists := fun _ => true;
  glob := fun _ => [];
  read := fun _ => "";
  load_fastp := fun _ => VDict [];
  load_stats := fun _ => {| ConversionResults := None |};
  read_csv := fun _ => [];
  index_repr := fun _ => "";
  skb_read := fun _ _ => Raise (OtherError "FASTQFormatError")
|}.

(** A run whose host-filter logs report a count of 310 digits. *)
Definition run_count_beyond_float : world := {|
  abspath := fun p => "/data/" +:+ p;
  path_exists := fun _ => false;
  glob := fun _ => [];
  read := fun _ =>
    "[M::main] processed 1" +:+ replicate_char 309 "0" +:+ " reads";
  load_fastp := fun _ => VDict [];
  load_stats := fun _ => {| ConversionResults := None |};
  read_csv := fun _ => [];
  index_repr := fun _ => "";
  skb_read := fun _ _ => Ok []
|}.

(** * Properties *)

(** ** Strings *)

#[local] Arguments String.append !_ _ / : simpl nomatch.

Lemma app_cons c s t : String c s +:+ t = String c (s +:+ t).
Proof. reflexivity. Qed.

(** ** Matchers: what each one matches, and which match is first *)

Lemma In_map_cons_fst c x l :
  In x (map (cons_fst c) l) <->
  exists m, x = (String c m, x.2) /\ In (m, x.2) l.
Proof.
  rewrite in_map_iff. split.
  - intros ([m r] & <- & Hin). exists m. by simpl.
  - intros (m & Hx & Hin). exists (m, x.2). split; [|done].
    destruct x; simpl in *. unfold cons_fst. simpl. congruence.
Qed.

Lemma m_star_In p s m r :
  In (m, r) (m_star p s) <-> s = m +:+ r /\ all_of p m = true.
Proof.
  revert m. induction s as [|c s IH]; intros m; simpl.
  - split.
    + intros [[= <- <-]|[]]. done.
    + intros [Hs _]. destruct m; [|done]. left. simpl in Hs. by subst.
  - destruct (p c) eqn:Hc.
    + rewrite in_app_iff, In_map_cons_fst. simpl. split.
      * intros [(m' & [= ->] & Hin)|[[= <- <-]|[]]]; [|done].
        apply IH in Hin as [-> Hm]. rewrite app_cons. simpl. by rewrite Hc, Hm.
      * intros [Hs Hm]. destruct m as [|c' m'].
        { right. left. simpl in Hs. by subst. }
        rewrite app_cons in Hs. injection Hs as <- ->. simpl in Hm.
        apply andb_true_iff in Hm as [_ Hm].
        left. exists m'. split; [done|]. by apply IH.
    + split.
      * intros [[= <- <-]|[]]. done.
      * intros [Hs Hm]. destruct m as [|c' m'].
        { left. simpl in Hs. by subst. }
        rewrite app_cons in Hs. injection Hs as <- ->. simpl in Hm.
        by rewrite Hc in Hm.
Qed.

Lemma strip_prefix_Some p s r : strip_prefix p s = Some r <-> s = p +:+ r.
Proof.
  revert s. induction p as [|a p IH]; intros s; simpl.
  - split; [by intros [= ->]|by intros ->].
  - destruct s as [|b s]; [done|].
    destruct (Ascii.eqb_spec a b) as [->|Hne].
    + rewrite IH. split; [by intros ->|by intros [= ->]].
    + split; [done|]. intros [= -> _]. done.
Qed.

Lemma m_lit_In p s u r : In (u, r) (m_lit p s) <-> s = p +:+ r.
Proof.
  unfold m_lit. destruct (strip_prefix p s) as [r'|] eqn:Hp; simpl.
  - apply strip_prefix_Some in Hp as ->. split.
    + by intros [[= _ <-]|[]].
    + intros ->%(inj (String.append p)). left. by destruct u.
  - split; [done|]. intros ->. 
    by rewrite (proj2 (strip_prefix_Some p _ r) eq_refl) in Hp.
Qed.

Lemma m_class_In p s c r :
  In (c, r) (m_class p s) <-> s = String c r /\ p c = true.
Proof.
  unfold m_class. destruct s as [|a s]; simpl.
  - split; [done|]. by intros [? _].
  - destruct (p a) eqn:Ha; simpl.
    + split.
      * by intros [[= <- <-]|[]].
      * intros [[= <- <-] _]. by left.
    + split; [done|]. intros [[= <- <-] Hc]. by rewrite Ha in Hc.
Qed.

Lemma m_ret_In {A} (a b : A) s r : In (b, r) (m_ret a s) <-> b = a /\ r = s.
Proof.
  unfold m_ret. simpl. split.
  - by intros [[= <- <-]|[]].
  - intros [-> ->]. by left.
Qed.

Lemma m_bind_In {A B} (m : matcher A) (k : A -> matcher B) s b r :
  In (b, r) (m_bind m k s) <->
  exists a r', In (a, r') (m s) /\ In (b, r) (k a r').
Proof.
  unfold m_bind. rewrite in_flat_map. split.
  - intros ([a r'] & ? & ?). eauto.
  - intros (a & r' & ? & ?). exists (a, r'). eauto.
Qed.

Lemma m_rep_In p lo hi s m r :
  In (m, r) (m_rep p lo hi s) <->
  s = m +:+ r /\ all_of p m = true /\ lo <= String.length m <= hi.
Proof.
  revert lo s m. induction hi as [|hi IH]; intros lo s m; simpl.
  - destruct lo; simpl.
    + split.
      * by intros [[= <- <-]|[]].
      * intros (-> & _ & _ & Hlen). destruct m; [by left|simpl in Hlen; lia].
    + split; [done|]. intros (_ & _ & ?). lia.
  - rewrite in_app_iff. split.
    + intros [Hin|Hin].
      * destruct s as [|c s]; [done|]. destruct (p c) eqn:Hc; [|done].
        apply In_map_cons_fst in Hin as (m' & [= ->] & Hin). simpl in Hin.
        apply IH in Hin as (-> & Hm & Hlen). simpl. rewrite Hc, Hm.
        split; [done|]. split; [done|]. lia.
      * destruct lo; [|done]. destruct Hin as [[= <- <-]|[]].
        simpl. split; [done|]. split; [done|]. lia.
    + intros (-> & Hm & Hlen). destruct m as [|c m]; simpl in *.
      * right. destruct lo; [by left|lia].
      * apply andb_true_iff in Hm as [Hc Hm]. left. rewrite Hc.
        apply In_map_cons_fst. exists m. split; [done|]. simpl.
        apply IH. split; [done|]. split; [done|]. lia.
Qed.

Lemma m_plus_In p s m r :
  In (m, r) (m_plus p s) <->
  s = m +:+ r /\ all_of p m = true /\ m <> "".
Proof.
  unfold m_plus. destruct s as [|c s].
  - split; [done|]. intros (Hs & _ & Hne). destruct m; [done|]. done.
  - destruct (p c) eqn:Hc.
    + rewrite In_map_cons_fst. simpl. split.
      * intros (m' & [= ->] & Hin). apply m_star_In in Hin as [-> Hm].
        simpl. by rewrite Hc, Hm.
      * intros (Hs & Hm & Hne). destruct m as [|c' m]; [done|].
        simpl in *. injection Hs as <- ->.
        apply andb_true_iff in Hm as [_ Hm].
        exists m. split; [done|]. by apply m_star_In.
    + split; [done|]. intros (Hs & Hm & Hne). destruct m as [|c' m]; [done|].
      simpl in *. injection Hs as <- ->. by rewrite Hc in Hm.
Qed.

Lemma m_eos_In s u r :
  In (u, r) (m_eos s) <-> r = s /\ (s = "" \/ s = String newline "").
Proof.
  unfold m_eos. destruct u. destruct s as [|c [|c' s]]; simpl.
  - split; [intros [[= <-]|[]]; auto|]. intros [-> _]. by left.
  - destruct (Ascii.eqb_spec c newline) as [->|Hne]; simpl.
    + split; [intros [[= <-]|[]]; auto|]. intros [-> _]. by left.
    + split; [done|]. intros [_ [?|[= ?]]]; done.
  - split; [done|]. intros [_ [?|?]]; done.
Qed.

Lemma re_match_Some {A} (m : matcher A) s a :
  re_match m s = Some a -> exists r, In (a, r) (m s).
Proof.
  unfold re_match. destruct (m s) as [|[a' r] l]; [done|].
  intros [= ->]. exists r. by left.
Qed.

Lemma re_match_None {A} (m : matcher A) s :
  re_match m s = None <-> m s = [].
Proof. unfold re_match. by destruct (m s) as [|[a' r] l]. Qed.

Lemma flat_map_nil {A B} (f : A -> list B) l :
  flat_map f l = [] <-> forall x, In x l -> f x = [].
Proof.
  induction l as [|x l IH]; simpl; [done|].
  split.
  - intros [Hx Hl]%app_eq_nil y [<-|Hy]; [done|]. by apply IH.
  - intros H. rewrite (H x) by auto. simpl. apply IH. auto.
Qed.

(** The first match of ["x* k"] takes the longest run of [x] after
    which [k] matches. *)
Lemma m_star_first {B} p (k : string -> matcher B) s b :
  re_match (m_bind (m_star p) k) s = Some b ->
  exists m rest,
    s = m +:+ rest /\ all_of p m = true /\ re_match (k m) rest = Some b /\
    forall m' rest',
      s = m' +:+ rest' -> all_of p m' = true -> k m' rest' <> [] ->
      String.length m' <= String.length m.
Proof.
  revert k. induction s as [|c s IH]; intros k.
  - unfold re_match, m_bind. simpl. rewrite app_nil_r. intros Hb.
    exists "", "". split; [done|]. split; [done|]. split; [done|].
    intros m' rest' Hs _ _. destruct m'; [done|done].
  - unfold re_match, m_bind. simpl. destruct (p c) eqn:Hc.
    + rewrite flat_map_app, flat_map_concat_map, map_map,
        <- flat_map_concat_map. simpl. rewrite app_nil_r.
      destruct (flat_map (fun x => k (String c x.1) x.2) (m_star p s))
        as [|[b0 r0] l0] eqn:Hfm.
      * simpl. intros Hb. exists "", (String c s).
        split; [done|]. split; [done|]. split; [done|].
        intros m' rest' Hs Hm' Hk. destruct m' as [|c' m']; [done|].
        simpl in Hs. injection Hs as <- ->. simpl in Hm'.
        apply andb_true_iff in Hm' as [_ Hm'].
        exfalso. apply Hk.
        rewrite flat_map_nil in Hfm.
        apply (Hfm (m', rest')). by apply m_star_In.
      * simpl. intros [= ->].
        destruct (IH (fun m => k (String c m)) ) as (m & rest & -> & Hm & Hk & Hmax).
        { unfold re_match, m_bind. simpl. by rewrite Hfm. }
        exists (String c m), rest. simpl. rewrite Hc, Hm.
        split; [done|]. split; [done|]. split; [done|].
        intros m' rest' Hs Hm' Hk'. destruct m' as [|c' m']; [simpl; lia|].
        simpl in Hs. injection Hs as <- Hs. simpl in Hm'.
        apply andb_true_iff in Hm' as [_ Hm'].
        simpl. apply le_n_S. by apply (Hmax m' rest').
    + simpl. rewrite app_nil_r. intros Hb. exists "", (String c s).
      split; [done|]. split; [done|]. split; [done|].
      intros m' rest' Hs Hm' _. destruct m' as [|c' m']; [done|].
      simpl in Hs. injection Hs as <- ->. simpl in Hm'. by rewrite Hc in Hm'.
Qed.

(** ** Filename identity parser *)

Lemma In_not_nil {A} (x : A) l : In x l -> l <> [].
Proof. by destruct l. Qed.

Ltac m_inv :=
  repeat (cbv beta in *;
    match goal with
    | H : In _ (m_bind _ _ _) |- _ => apply m_bind_In in H as (? & ? & ? & H)
    | H : In _ (m_lit _ _) |- _ => apply m_lit_In in H
    | H : In _ (m_rep _ _ _ _) |- _ => apply m_rep_In in H as (? & ? & ?)
    | H : In _ (m_class _ _) |- _ => apply m_class_In in H as [? ?]
    | H : In _ (m_star _ _) |- _ => apply m_star_In in H as [? ?]
    | H : In _ (m_plus _ _) |- _ => apply m_plus_In in H as (? & ? & ?)
    | H : In _ (m_ret _ _) |- _ => apply m_ret_In in H as [? ?]
    | H : In _ (m_eos _) |- _ => apply m_eos_In in H as [? ?]
    end).

Ltac m_step :=
  cbv beta; apply m_bind_In; eexists _, _; split.

Ltac m_lit_step :=
  cbv beta; apply m_bind_In; exists tt; eexists; split;
  [by apply m_lit_In|].

Lemma SAMPLE_PATTERN_first filename name g2 g3 g4 :
  re_match SAMPLE_PATTERN filename = Some (name, g2, g3, g4) ->
  exists cell lane d n rest,
    g2 = String "S" cell /\ g3 = String "L" lane /\
    g4 = String d (String n "") /\
    filename_convention filename name cell lane d n rest /\
    forall name' cell' lane' d' n' rest',
      filename_convention filename name' cell' lane' d' n' rest' ->
      String.length name' <= String.length name.
Proof.
  unfold SAMPLE_PATTERN. intros H.
  apply m_star_first in H as (m & rest & Hs & Hm & H & Hmax).
  apply re_match_Some in H as [r H]. m_inv. simplify_eq.
  eexists _, _, _, _, _. split; [done|]. split; [done|]. split; [done|].
  split.
  { unfold filename_convention. repeat split; try done; try lia. }
  intros name' cell' lane' d' n' rest' (Hf & Hn & Hc & Hcl & Hl & Hll & Hd & Hnn).
  eapply Hmax; [exact Hf|exact Hn|].
  apply (In_not_nil ((name', String "S" cell', String "L" lane',
                      String d' (String n' "")), rest')).
  m_lit_step.
  m_lit_step.
  m_step; [apply m_rep_In; split; [reflexivity|]; by split|].
  m_lit_step.
  m_lit_step.
  m_step; [apply m_rep_In; split; [reflexivity|]; by split|].
  m_lit_step.
  m_step; [by apply m_class_In|].
  m_step; [by apply m_class_In|].
  m_step; [apply (m_star_In _ _ "" rest'); by split|].
  by apply m_ret_In.
Qed.

Lemma SAMPLE_PATTERN_matches filename name cell lane d n rest :
  filename_convention filename name cell lane d n rest ->
  re_match SAMPLE_PATTERN filename <> None.
Proof.
  intros (Hf & Hn & Hc & Hcl & Hl & Hll & Hd & Hnn).
  rewrite re_match_None.
  apply (In_not_nil ((name, String "S" cell, String "L" lane,
                      String d (String n "")), rest)).
  unfold SAMPLE_PATTERN.
  m_step; [apply m_star_In; split; [exact Hf|exact Hn]|].
  m_lit_step. m_lit_step.
  m_step; [apply m_rep_In; split; [reflexivity|]; by split|].
  m_lit_step. m_lit_step.
  m_step; [apply m_rep_In; split; [reflexivity|]; by split|].
  m_lit_step.
  m_step; [by apply m_class_In|].
  m_step; [by apply m_class_In|].
  m_step; [apply (m_star_In _ _ "" rest); by split|].
  by apply m_ret_In.
Qed.

Lemma lstrip_spec c s :
  exists k, s = replicate_char k c +:+ lstrip c s /\
            startswith c (lstrip c s) = false.
Proof.
  induction s as [|a s (k & Hs & Hk)]; simpl.
  - by exists 0.
  - destruct (Ascii.eqb_spec a c) as [->|Hne].
    + exists (S k). simpl. by rewrite <- Hs.
    + exists 0. simpl. split; [done|]. by apply Ascii.eqb_neq.
Qed.

Lemma lstrip_all c s :
  all_of (Ascii.eqb c) s = true -> lstrip c s = "".
Proof.
  induction s as [|a s IH]; simpl; [done|].
  intros [Ha Hs]%andb_true_iff. rewrite Ascii.eqb_sym, Ha. auto.
Qed.

(** C6.  A filename that follows the convention is parsed: the result
    is the name and the lane of a reading of the filename by the
    convention, the one with the longest name, and the lane returned is
    the lane digits without their leading zeros (the "L" is not part of
    them).  A filename that has no such reading raises the
    [ValueError] of the unrecognized pattern. *)
Theorem extract_name_and_lane_convention filename :
  (forall name cell lane d n rest,
     filename_convention filename name cell lane d n rest ->
     exists name' cell' lane' d' n' rest' k,
       filename_convention filename name' cell' lane' d' n' rest' /\
       String.length name <= String.length name' /\
       lane' = replicate_char k "0" +:+ lstrip "0" lane' /\
       startswith "0" (lstrip "0" lane') = false /\
       _extract_name_and_lane filename = Ok (name', lstrip "0" lane')) /\
  ((forall name cell lane d n rest,
      ~ filename_convention filename name cell lane d n rest) ->
   _extract_name_and_lane filename =
     Raise (ValueError ("Unrecognized filename pattern " +:+ filename))).
Proof.
  split.
  - intros name cell lane d n rest Hconv.
    pose proof (SAMPLE_PATTERN_matches _ _ _ _ _ _ _ Hconv) as Hm.
    unfold _extract_name_and_lane.
    destruct (re_match SAMPLE_PATTERN filename)
      as [[[[name' g2] g3] g4]|] eqn:Hre; [|done].
    apply SAMPLE_PATTERN_first in Hre
      as (cell' & lane' & d' & n' & rest' & -> & -> & -> & Hconv' & Hmax).
    destruct (lstrip_spec "0" lane') as (k & Hk & Hz).
    exists name', cell', lane', d', n', rest', k.
    split; [done|]. split; [by eapply Hmax|]. by simpl.
  - intros Hno. unfold _extract_name_and_lane.
    destruct (re_match SAMPLE_PATTERN filename)
      as [[[[name' g2] g3] g4]|] eqn:Hre; [|done].
    apply SAMPLE_PATTERN_first in Hre
      as (cell' & lane' & d' & n' & rest' & _ & _ & _ & Hconv' & _).
    by apply Hno in Hconv'.
Qed.

(** C9.  When the lane group of the pattern is "L" followed by zeros
    only, the lane returned is the empty string, not "0". *)
Theorem extract_name_and_lane_zero_lane filename name cell zeros dir :
  re_match SAMPLE_PATTERN filename = Some (name, cell, String "L" zeros, dir) ->
  all_of (Ascii.eqb "0") zeros = true ->
  _extract_name_and_lane filename = Ok (name, "").
Proof.
  intros Hre Hz. unfold _extract_name_and_lane. rewrite Hre. simpl.
  by rewrite lstrip_all.
Qed.

Lemma extract_name_and_lane_zero_lane_witness :
  _extract_name_and_lane "sample1_S7_L000_R1_001.fastq.gz" = Ok ("sample1", "").
Proof.
  apply (extract_name_and_lane_zero_lane _ "sample1" "S7" "000" "R1");
    vm_compute; reflexivity.
Defined.

(** ** Numbers: decimal numerals, rounding and range *)

Lemma int_of_digits_nonneg acc s :
  (0 <= acc)%Z -> all_of is_digit s = true -> (0 <= int_of_digits acc s)%Z.
Proof.
  revert acc. induction s as [|c s IH]; intros acc Hacc; simpl; [done|].
  intros [Hc Hs]%andb_true_iff. apply IH; [|done].
  unfold is_digit in Hc. apply andb_true_iff in Hc as [Hlo _].
  apply Nat.leb_le in Hlo. unfold digit_value. lia.
Qed.

Lemma int_of_digits_acc (u : Decimal.uint) (acc : positive) :
  int_of_digits (Z.pos acc) (NilEmpty.string_of_uint u) =
  Z.pos (Pos.of_uint_acc u acc).
Proof.
  revert acc. induction u as [|u IH|u IH|u IH|u IH|u IH|u IH|u IH|u IH|u IH|u IH];
    intros acc; simpl; [done|..]; rewrite <- IH; f_equal;
    unfold digit_value;
    match goal with
    | |- context [Z.of_nat (nat_of_ascii ?c)] =>
        let v := eval vm_compute in (Z.of_nat (nat_of_ascii c)) in
        change (Z.of_nat (nat_of_ascii c)) with v
    end; lia.
Qed.

Lemma int_of_digits_uint (u : Decimal.uint) :
  int_of_digits 0 (NilEmpty.string_of_uint u) = Z.of_uint u.
Proof.
  unfold Z.of_uint.
  induction u as [|u IH|u IH|u IH|u IH|u IH|u IH|u IH|u IH|u IH|u IH];
    simpl; [done|exact IH|..]; apply (int_of_digits_acc u).
Qed.

(** [int] undoes [str], and ignores zeros on the left. *)
Lemma int_of_digits_str (n : Z) : (0 <= n)%Z -> int_of_digits 0 (str n) = n.
Proof.
  intros Hn. unfold str. destruct n as [|p|p]; [done| |lia].
  simpl. assert (Hnil : Pos.to_uint p <> Decimal.Nil)
    by apply DecimalPos.Unsigned.to_uint_nonnil.
  unfold NilZero.string_of_uint.
  destruct (Pos.to_uint p) eqn:Hp; [done|..];
    rewrite <- Hp, int_of_digits_uint; unfold Z.of_uint;
    by rewrite DecimalPos.Unsigned.of_to.
Qed.

Lemma int_of_digits_zeros (k : nat) (s : string) :
  int_of_digits 0 (replicate_char k "0" +:+ s) = int_of_digits 0 s.
Proof. induction k as [|k IH]; simpl; [done|exact IH]. Qed.

Lemma digits_uint s :
  all_of is_digit s = true ->
  exists u, NilEmpty.string_of_uint u = s.
Proof.
  induction s as [|c s IH]; simpl.
  - by exists Decimal.Nil.
  - intros [Hc Hs]%andb_true_iff. destruct (IH Hs) as [u <-].
    destruct c as [[] [] [] [] [] [] [] []]; try discriminate Hc.
    + by exists (Decimal.D7 u).
    + by exists (Decimal.D3 u).
    + by exists (Decimal.D5 u).
    + by exists (Decimal.D9 u).
    + by exists (Decimal.D1 u).
    + by exists (Decimal.D6 u).
    + by exists (Decimal.D2 u).
    + by exists (Decimal.D4 u).
    + by exists (Decimal.D8 u).
    + by exists (Decimal.D0 u).
Qed.

Lemma unorm_zeros (u : Decimal.uint) :
  u <> Decimal.Nil ->
  exists zeros,
    NilEmpty.string_of_uint u =
    replicate_char zeros "0" +:+ NilEmpty.string_of_uint (Decimal.unorm u).
Proof.
  induction u as [|u IH|u IH|u IH|u IH|u IH|u IH|u IH|u IH|u IH|u IH];
    intros Hne; [done| |by exists 0..].
  destruct u as [|u|u|u|u|u|u|u|u|u|u]; [by exists 0|..];
    (destruct IH as [zeros Hz]; [done|]; exists (S zeros);
     change (Decimal.unorm (Decimal.D0 ?x)) with (Decimal.unorm x);
     simpl replicate_char; rewrite app_cons, <- Hz; done).
Qed.

(** Every string of digits is a decimal numeral: the numeral that
    [str] writes, after zeros. *)
Lemma digits_decimal s :
  all_of is_digit s = true -> s <> "" ->
  decimal s (int_of_digits 0 s).
Proof.
  intros Hd Hne. split; [by apply int_of_digits_nonneg|].
  destruct (digits_uint s Hd) as [u <-].
  assert (Hu : u <> Decimal.Nil) by (by intros ->).
  destruct (unorm_zeros u Hu) as [zeros Hz]. exists zeros.
  rewrite Hz at 1. f_equal. rewrite int_of_digits_uint. unfold str.
  change (Z.of_uint u) with (Z.of_int (Decimal.Pos u)).
  rewrite DecimalZ.to_of. simpl. unfold NilZero.string_of_uint.
  assert (Hn : Decimal.unorm u <> Decimal.Nil).
  { unfold Decimal.unorm. by destruct (Decimal.nzhead u). }
  by destruct (Decimal.unorm u).
Qed.

Lemma digit_int_of_str c :
  is_digit c = true ->
  int_space c = false /\ Ascii.eqb c "-" = false /\
  Ascii.eqb c "+" = false /\ Ascii.eqb c "_" = false.
Proof.
  destruct c as [[] [] [] [] [] [] [] []]; try discriminate 1; done.
Qed.

Lemma scan_digits_all s :
  all_of is_digit s = true -> scan_digits s = Some (s, "").
Proof.
  induction s as [|c s IH]; simpl; [done|].
  intros [Hc Hs]%andb_true_iff. by rewrite Hc, IH.
Qed.

(** [int] on a string of digits: the value of the numeral, unless the
    digits are too many. *)
Lemma int_digits s :
  all_of is_digit s = true -> s <> "" ->
  int (VStr s) =
    if (int_max_str_digits <? String.length s)%nat then
      Raise (ValueError
               ("Exceeds the limit (4300 digits) for integer string conversion: value has "
                +:+ str (Z.of_nat (String.length s))
                +:+ " digits; use sys.set_int_max_str_digits() to increase the limit"))
    else Ok (int_of_digits 0 s).
Proof.
  intros Hd Hne. destruct s as [|c s]; [done|].
  pose proof Hd as Hd'. simpl in Hd'. apply andb_true_iff in Hd' as [Hc _].
  destruct (digit_int_of_str c Hc) as (Hsp & Hm & Hp & Hu).
  unfold int, int_of_str. cbn [lstrip_spaces]. rewrite Hsp, Hm, Hp.
  cbn [startswith]. rewrite Hu, (scan_digits_all _ Hd).
  cbn [String.eqb]. 
  destruct (int_max_str_digits <? _)%nat; [done|]. done.
Qed.

Lemma round_half_even_exact z :
  (Z.abs z < 2 ^ 53)%Z -> round_half_even z = z.
Proof.
  intros Hz. unfold round_half_even.
  assert (Z.log2 (Z.abs z) - 52 <= 0)%Z as He.
  { destruct (Z.eq_dec (Z.abs z) 0%Z) as [Heq|Hne]; [by rewrite Heq|].
    assert (Z.log2 (Z.abs z) < 53)%Z by (apply Z.log2_lt_pow2; lia). lia. }
  by rewrite (proj2 (Z.leb_le _ _) He).
Qed.

(** Beyond 53 bits the conversion gives a nearest multiple of the unit
    in the last place [2 ^ e]. *)
Lemma round_half_even_nearest z :
  (2 ^ 53 <= z)%Z ->
  let e := (Z.log2 z - 52)%Z in
  let r := round_half_even z in
  (0 < e)%Z /\ (r mod 2 ^ e = 0)%Z /\ (2 * Z.abs (r - z) <= 2 ^ e)%Z /\
  (2 ^ Z.log2 z <= r)%Z.
Proof.
  intros Hz e r.
  assert (0 < z)%Z as Hpos by (pose proof (Z.pow_pos_nonneg 2 53); lia).
  assert (53 <= Z.log2 z)%Z as Hlog by (by apply Z.log2_le_pow2).
  assert (0 < e)%Z as He by (unfold e; lia).
  assert (0 < 2 ^ e)%Z as Hulp by (apply Z.pow_pos_nonneg; lia).
  pose proof (Z.log2_spec z Hpos) as [Hlo _].
  assert (2 ^ Z.log2 z = 2 ^ 52 * 2 ^ e)%Z as Hsplit.
  { rewrite <- Z.pow_add_r by lia. f_equal. unfold e. lia. }
  pose proof (Z.div_mod z (2 ^ e) ltac:(lia)) as Hdm.
  pose proof (Z.mod_pos_bound z (2 ^ e) Hulp) as Hrem.
  assert (2 ^ 52 <= z / 2 ^ e)%Z as Hq.
  { apply Z.div_le_lower_bound; [done|]. lia. }
  assert (0 < 2 ^ 52)%Z as H52 by (by apply Z.pow_pos_nonneg).
  split; [done|]. subst r. unfold round_half_even.
  rewrite (Z.abs_eq z) by lia. fold e.
  rewrite (proj2 (Z.leb_gt _ _) He), (Z.sgn_pos z Hpos), Z.mul_1_l.
  set (q := (z / 2 ^ e)%Z) in *. set (rem := (z mod 2 ^ e)%Z) in *.
  set (ulp := (2 ^ e)%Z) in *.
  destruct ((ulp <? 2 * rem)%Z || ((2 * rem =? ulp)%Z && Z.odd q)) eqn:Hup.
  - split; [by apply Z.mod_mul; lia|].
    assert (ulp <= 2 * rem)%Z as Hhalf.
    { apply orb_true_iff in Hup as [H|H].
      - apply Z.ltb_lt in H. lia.
      - apply andb_true_iff in H as [H _]. apply Z.eqb_eq in H. lia. }
    split; nia.
  - split; [by apply Z.mod_mul; lia|].
    apply orb_false_iff in Hup as [Hlt Heq]. apply Z.ltb_ge in Hlt.
    split; nia.
Qed.

Lemma round_half_even_nonneg z : (0 <= z)%Z -> (0 <= round_half_even z)%Z.
Proof.
  intros Hz. destruct (Z.lt_ge_cases z (2 ^ 53)) as [Hlt|Hge].
  - rewrite round_half_even_exact; [done|]. by rewrite Z.abs_eq.
  - destruct (round_half_even_nearest z Hge) as (_ & _ & _ & Hlo).
    pose proof (Z.pow_pos_nonneg 2 (Z.log2 z) ltac:(lia) (Z.log2_nonneg z)).
    lia.
Qed.

Lemma int_to_float_exact z :
  (0 <= z < 2 ^ 53)%Z -> int_to_float z = Ok (float_of_int z).
Proof.
  intros Hz. unfold int_to_float.
  rewrite round_half_even_exact by (rewrite Z.abs_eq; lia).
  assert (2 ^ 53 < 2 ^ 1024)%Z by (by apply Z.pow_lt_mono_r).
  rewrite (proj2 (Z.leb_gt _ _)); [done|]. rewrite Z.abs_eq; lia.
Qed.

Lemma int_to_float_overflow z :
  (2 ^ 1024 <= z)%Z ->
  int_to_float z = Raise (OverflowError "int too large to convert to float").
Proof.
  intros Hz. unfold int_to_float.
  assert (2 ^ 53 < 2 ^ 1024)%Z by (by apply Z.pow_lt_mono_r).
  destruct (round_half_even_nearest z ltac:(lia)) as (_ & _ & _ & Hlo).
  assert (0 < z)%Z as Hpos by lia.
  assert (1024 <= Z.log2 z)%Z as Hlog by (by apply Z.log2_le_pow2).
  assert (2 ^ 1024 <= 2 ^ Z.log2 z)%Z by (by apply Z.pow_le_mono_r).
  rewrite (proj2 (Z.leb_le _ _)); [done|]. rewrite Z.abs_eq; lia.
Qed.

Lemma fdiv_two (r : Z) :
  fdiv (float_of_int r) (Fin 2) = Fin (Qred (inject_Z r / 2)).
Proof. done. Qed.

(** ** Host-filter log parser *)

Lemma re_match_lit {B} p (k : unit -> matcher B) s :
  re_match (m_bind (m_lit p) k) s =
  match strip_prefix p s with
  | Some r => re_match (k tt) r
  | None => None
  end.
Proof.
  unfold re_match, m_bind, m_lit.
  destruct (strip_prefix p s); simpl; [|done]. by rewrite app_nil_r.
Qed.

Lemma app_inv_length s s' t t' :
  s +:+ t = s' +:+ t' -> String.length s = String.length s' ->
  s = s' /\ t = t'.
Proof.
  revert s'. induction s as [|c s IH]; intros [|c' s'] H Hlen;
    simpl in *; try done.
  injection H as -> H. injection Hlen as Hlen.
  by destruct (IH _ H Hlen) as [-> ->].
Qed.

(** Two runs of a class, each followed by a character outside the
    class, that start the same string are the same run. *)
Lemma run_unique p a b c c' x y :
  all_of p a = true -> all_of p b = true ->
  p c = false -> p c' = false ->
  a +:+ String c x = b +:+ String c' y -> a = b.
Proof.
  revert b. induction a as [|e a IH]; intros [|e' b] Ha Hb Hc Hc' H;
    simpl in *; try done.
  - injection H as -> _. apply andb_true_iff in Hb as [Hb _]. congruence.
  - injection H as -> _. apply andb_true_iff in Ha as [Ha _]. congruence.
  - injection H as -> H.
    apply andb_true_iff in Ha as [_ Ha]. apply andb_true_iff in Hb as [_ Hb].
    f_equal. eauto.
Qed.

Lemma SAMTOOLS_PATTERN_first content digits :
  re_match SAMTOOLS_PATTERN content = Some digits ->
  exists bracket rest,
    samtools_log content bracket digits rest /\
    forall bracket' digits' rest',
      samtools_log content bracket' digits' rest' ->
      String.length bracket' <= String.length bracket /\
      (String.length bracket' = String.length bracket -> digits' = digits).
Proof.
  unfold SAMTOOLS_PATTERN. rewrite re_match_lit.
  destruct (strip_prefix "[" content) as [c1|] eqn:Hp; [|done].
  apply strip_prefix_Some in Hp as ->. intros H.
  apply m_star_first in H as (bracket & r1 & -> & Hb & H & Hmax).
  apply re_match_Some in H as [r H]. m_inv. simplify_eq.
  eexists bracket, _. split; [done|].
  intros bracket' digits' rest' (Hc & Hb' & Hd' & Hne').
  simpl in Hc. injection Hc as Hc.
  assert (Hle : String.length bracket' <= String.length bracket).
  { eapply Hmax; [exact Hc|exact Hb'|].
    apply (In_not_nil (digits', rest')).
    m_lit_step. m_step; [by apply m_plus_In|]. m_lit_step.
    by apply m_ret_In. }
  split; [done|]. intros Hlen.
  symmetry in Hc. apply app_inv_length in Hc as [-> Hc]; [|done].
  simpl in Hc.
  repeat match type of Hc with String _ _ = String _ _ => injection Hc as Hc end.
  eapply (run_unique is_digit); [exact Hd'|eassumption| | |exact Hc]; done.
Qed.

Lemma SAMTOOLS_PATTERN_matches content bracket digits rest :
  samtools_log content bracket digits rest ->
  re_match SAMTOOLS_PATTERN content <> None.
Proof.
  intros (-> & Hb & Hd & Hne). rewrite re_match_None.
  apply (In_not_nil (digits, rest)). unfold SAMTOOLS_PATTERN.
  m_lit_step. m_step; [apply m_star_In; by split|].
  m_lit_step. m_step; [by apply m_plus_In|]. m_lit_step.
  by apply m_ret_In.
Qed.

(** C8, amended.  A log whose content starts as "[...] processed N
    reads" is parsed from the reading with the longest bracketed text
    (the only one, when there is one reading), whose digits write the
    number N.  More than 4300 digits are refused by [int] with a
    [ValueError].  Otherwise the result is N / 2 exactly when N is
    below 2^53; a larger N is first converted to a nearest [float64],
    a multiple of the unit in the last place at most half a unit away
    from N, and the half of that is returned, unless it is beyond the
    range of [float64], as it is for every N from 2^1024 on: then an
    [OverflowError] is raised.  A log with no such start raises the
    [ValueError] that names the path. *)
Theorem parse_samtools_counts_halves w path :
  (forall bracket digits rest,
     samtools_log (read w path) bracket digits rest ->
     exists bracket' digits' rest' N,
       samtools_log (read w path) bracket' digits' rest' /\
       String.length bracket <= String.length bracket' /\
       (String.length bracket = String.length bracket' -> digits' = digits) /\
       decimal digits' N /\
       (String.length digits' <= 4300 -> (N < 2 ^ 53)%Z ->
        _parse_samtools_counts w path =
          Ok (PyFloat (Fin (Qred (inject_Z N / 2))))) /\
       (String.length digits' <= 4300 -> (2 ^ 53 <= N)%Z ->
        exists r : Z,
          (r mod 2 ^ (Z.log2 N - 52) = 0)%Z /\
          (2 * Z.abs (r - N) <= 2 ^ (Z.log2 N - 52))%Z /\
          _parse_samtools_counts w path =
            if (2 ^ 1024 <=? r)%Z
            then Raise (OverflowError "int too large to convert to float")
            else Ok (PyFloat (Fin (Qred (inject_Z r / 2))))) /\
       (String.length digits' <= 4300 -> (2 ^ 1024 <= N)%Z ->
        _parse_samtools_counts w path =
          Raise (OverflowError "int too large to convert to float")) /\
       (4300 < String.length digits' ->
        _parse_samtools_counts w path =
          Raise (ValueError
                   ("Exceeds the limit (4300 digits) for integer string conversion: value has "
                    +:+ str (Z.of_nat (String.length digits'))
                    +:+ " digits; use sys.set_int_max_str_digits() to increase the limit")))) /\
  ((forall bracket digits rest,
      ~ samtools_log (read w path) bracket digits rest) ->
   _parse_samtools_counts w path =
     Raise (ValueError ("The samtools log for " +:+ path +:+ " is malformed"))).
Proof.
  unfold _parse_samtools_counts. split.
  - intros bracket digits rest Hlog.
    pose proof (SAMTOOLS_PATTERN_matches _ _ _ _ Hlog) as Hm.
    destruct (re_match SAMTOOLS_PATTERN (read w path)) as [n|] eqn:Hre;
      [|done].
    apply SAMTOOLS_PATTERN_first in Hre as (bracket' & rest' & Hlog' & Hmax).
    exists bracket', n, rest', (int_of_digits 0 n). split; [done|].
    destruct (Hmax _ _ _ Hlog) as [Hle Heq]. split; [done|].
    split; [by intros ?; symmetry; apply Heq|].
    destruct Hlog' as (_ & _ & Hd & Hne).
    pose proof (digits_decimal n Hd Hne) as Hdec. split; [done|].
    destruct Hdec as [Hnn _]. rewrite (int_digits n Hd Hne).
    unfold int_max_str_digits. split; [|split; [|split]].
    + intros Hlen Hlt. rewrite (proj2 (Nat.ltb_ge _ _) Hlen).
      cbn [rbind]. rewrite int_to_float_exact by done. cbn [rbind].
      by rewrite fdiv_two.
    + intros Hlen Hge. rewrite (proj2 (Nat.ltb_ge _ _) Hlen). cbn [rbind].
      destruct (round_half_even_nearest _ Hge) as (_ & Hmod & Hnear & _).
      exists (round_half_even (int_of_digits 0 n)).
      split; [done|]. split; [done|]. unfold int_to_float.
      rewrite (Z.abs_eq (round_half_even _))
        by (by apply round_half_even_nonneg).
      destruct (2 ^ 1024 <=? _)%Z; [done|]. cbn [rbind].
      by rewrite fdiv_two.
    + intros Hlen Hge. rewrite (proj2 (Nat.ltb_ge _ _) Hlen). cbn [rbind].
      by rewrite int_to_float_overflow.
    + intros Hlen. by rewrite (proj2 (Nat.ltb_lt _ _) Hlen).
  - intros Hno.
    destruct (re_match SAMTOOLS_PATTERN (read w path)) as [n|] eqn:Hre;
      [|done].
    apply SAMTOOLS_PATTERN_first in Hre as (bracket' & rest' & Hlog' & _).
    by apply Hno in Hlog'.
Qed.

(** C8, as stated, fails.  The log of the run [run_count_beyond_float]
    starts as "[M::main] processed N reads" with N = 10^309, and no
    half of N is returned: the division raises an [OverflowError]. *)
Lemma parse_samtools_counts_beyond_float :
  samtools_log (read run_count_beyond_float "run/P/samtools/S1_S1_L001_R1_001.log")
    "M::main" ("1" +:+ replicate_char 309 "0") "" /\
  decimal ("1" +:+ replicate_char 309 "0") (10 ^ 309) /\
  _parse_samtools_counts run_count_beyond_float
    "run/P/samtools/S1_S1_L001_R1_001.log" =
    Raise (OverflowError "int too large to convert to float").
Proof.
  split; [by vm_compute|]. split; [|by vm_compute].
  split; [done|]. exists 0. by vm_compute.
Qed.

(** ** Direct sequence counter *)

Lemma try_variants_Ok w file_path vs n :
  try_variants w file_path vs = Ok n <->
  exists i variant sequences,
    vs !! i = Some variant /\
    skb_read w file_path variant = Ok sequences /\
    n = Z.of_nat (length sequences) /\
    forall j earlier, j < i -> vs !! j = Some earlier ->
      exists msg, skb_read w file_path earlier = Raise (ValueError msg).
Proof.
  induction vs as [|v vs IH]; simpl.
  - split; [done|]. by intros (i & ? & ? & ? & _).
  - destruct (skb_read w file_path v) as [sequences|e] eqn:Hv.
    + split.
      * intros [= <-]. exists 0, v, sequences. repeat split; try done.
        intros j ? Hj. lia.
      * intros ([|i] & variant & sequences' & Hi & Hr & -> & Hearlier).
        -- simpl in Hi. injection Hi as <-. congruence.
        -- destruct (Hearlier 0 v) as [msg Hmsg]; [lia|done|]. congruence.
    + destruct e as [msg| | | | |].
      * rewrite IH. split.
        -- intros (i & variant & sequences & Hi & Hr & -> & Hearlier).
           exists (S i), variant, sequences. repeat split; try done.
           intros [|j] earlier Hj Hl; simpl in Hl.
           ++ injection Hl as <-. eauto.
           ++ apply (Hearlier j); [lia|done].
        -- intros ([|i] & variant & sequences & Hi & Hr & -> & Hearlier);
             simpl in Hi.
           ++ injection Hi as <-. congruence.
           ++ exists i, variant, sequences. repeat split; try done.
              intros j earlier Hj Hl. apply (Hearlier (S j)); [lia|done].
      * split; [done|].
        intros ([|i] & variant & sequences & Hi & Hr & -> & Hearlier);
          simpl in Hi.
        -- injection Hi as <-. congruence.
        -- destruct (Hearlier 0 v) as [msg' Hmsg]; [lia|done|]. congruence.
      * split; [done|].
        intros ([|i] & variant & sequences & Hi & Hr & -> & Hearlier);
          simpl in Hi.
        -- injection Hi as <-. congruence.
        -- destruct (Hearlier 0 v) as [msg' Hmsg]; [lia|done|]. congruence.
      * split; [done|].
        intros ([|i] & variant & sequences & Hi & Hr & -> & Hearlier);
          simpl in Hi.
        -- injection Hi as <-. congruence.
        -- destruct (Hearlier 0 v) as [msg' Hmsg]; [lia|done|]. congruence.
      * split; [done|].
        intros ([|i] & variant & sequences & Hi & Hr & -> & Hearlier);
          simpl in Hi.
        -- injection Hi as <-. congruence.
        -- destruct (Hearlier 0 v) as [msg' Hmsg]; [lia|done|]. congruence.
      * split; [done|].
        intros ([|i] & variant & sequences & Hi & Hr & -> & Hearlier);
          simpl in Hi.
        -- injection Hi as <-. congruence.
        -- destruct (Hearlier 0 v) as [msg' Hmsg]; [lia|done|]. congruence.
Qed.

Lemma try_variants_ValueError w file_path vs msg :
  try_variants w file_path vs = Raise (ValueError msg) <->
  msg = "'" +:+ file_path +:+ " could not be opened" /\
  forall variant, In variant vs ->
    exists m, skb_read w file_path variant = Raise (ValueError m).
Proof.
  induction vs as [|v vs IH]; simpl.
  - split.
    + intros [= <-]. split; [done|]. by intros ? [].
    + by intros [-> _].
  - destruct (skb_read w file_path v) as [sequences|e] eqn:Hv.
    + split; [done|]. intros [_ H]. destruct (H v) as [m Hm]; [by left|].
      congruence.
    + destruct e as [m| | | | |].
      * rewrite IH. split.
        -- intros [-> H]. split; [done|]. intros variant [<-|Hin]; eauto.
        -- intros [-> H]. split; [done|]. intros variant Hin. apply H. by right.
      * split; [done|]. intros [_ H]. destruct (H v) as [m Hm]; [by left|].
        congruence.
      * split; [done|]. intros [_ H]. destruct (H v) as [m Hm]; [by left|].
        congruence.
      * split; [done|]. intros [_ H]. destruct (H v) as [m Hm]; [by left|].
        congruence.
      * split; [done|]. intros [_ H]. destruct (H v) as [m Hm]; [by left|].
        congruence.
      * split; [done|]. intros [_ H]. destruct (H v) as [m Hm]; [by left|].
        congruence.
Qed.

Lemma try_variants_other w file_path vs e :
  (forall msg, e <> ValueError msg) ->
  try_variants w file_path vs = Raise e <->
  exists i variant,
    vs !! i = Some variant /\
    skb_read w file_path variant = Raise e /\
    forall j earlier, j < i -> vs !! j = Some earlier ->
      exists msg, skb_read w file_path earlier = Raise (ValueError msg).
Proof.
  intros He. induction vs as [|v vs IH]; simpl.
  - split; [intros [= <-]; by destruct (He ("'" +:+ file_path +:+ " could not be opened"))|by intros (? & ? & ? & _)].
  - destruct (skb_read w file_path v) as [sequences|e'] eqn:Hv.
    + split; [done|]. intros ([|i] & variant & Hi & Hr & Hearlier).
      * simpl in Hi. injection Hi as <-. congruence.
      * destruct (Hearlier 0 v) as [msg Hmsg]; [lia|done|]. congruence.
    + assert (Hlater :
        (exists i variant,
           vs !! i = Some variant /\ skb_read w file_path variant = Raise e /\
           forall j earlier, j < i -> vs !! j = Some earlier ->
             exists msg, skb_read w file_path earlier = Raise (ValueError msg))
        -> forall msg, e' = ValueError msg ->
        exists i variant,
          (v :: vs) !! i = Some variant /\
          skb_read w file_path variant = Raise e /\
          forall j earlier, j < i -> (v :: vs) !! j = Some earlier ->
            exists msg, skb_read w file_path earlier = Raise (ValueError msg)).
      { intros (i & variant & Hi & Hr & Hearlier) msg ->.
        exists (S i), variant. repeat split; try done.
        intros [|j] earlier Hj Hl; simpl in Hl.
        - injection Hl as <-. eauto.
        - apply (Hearlier j); [lia|done]. }
      assert (Hhere : e' = e ->
        exists i variant,
          (v :: vs) !! i = Some variant /\
          skb_read w file_path variant = Raise e /\
          forall j earlier, j < i -> (v :: vs) !! j = Some earlier ->
            exists msg, skb_read w file_path earlier = Raise (ValueError msg)).
      { intros ->. exists 0, v. repeat split; try done. intros j ? Hj. lia. }
      assert (Hback :
        (exists i variant,
          (v :: vs) !! i = Some variant /\
          skb_read w file_path variant = Raise e /\
          forall j earlier, j < i -> (v :: vs) !! j = Some earlier ->
            exists msg, skb_read w file_path earlier = Raise (ValueError msg))
        -> e' = e \/
           ((exists msg, e' = ValueError msg) /\
            exists i variant,
              vs !! i = Some variant /\
              skb_read w file_path variant = Raise e /\
              forall j earlier, j < i -> vs !! j = Some earlier ->
                exists msg,
                  skb_read w file_path earlier = Raise (ValueError msg))).
      { intros ([|i] & variant & Hi & Hr & Hearlier); simpl in Hi.
        - injection Hi as <-. left. congruence.
        - right. split.
          + destruct (Hearlier 0 v) as [msg Hmsg]; [lia|done|].
            exists msg. congruence.
          + exists i, variant. repeat split; try done.
            intros j earlier Hj Hl. apply (Hearlier (S j)); [lia|done]. }
      destruct e' as [msg| | | | |].
      * rewrite IH. split; [intros H; by eapply Hlater|].
        intros [Heq|[_ H]]%Hback; [by destruct (He msg)|done].
      * split; [intros [= <-]; by apply Hhere|].
        intros [Heq|[[msg' ?] _]]%Hback; [congruence|done].
      * split; [intros [= <-]; by apply Hhere|].
        intros [Heq|[[msg' ?] _]]%Hback; [congruence|done].
      * split; [intros [= <-]; by apply Hhere|].
        intros [Heq|[[msg' ?] _]]%Hback; [congruence|done].
      * split; [intros [= <-]; by apply Hhere|].
        intros [Heq|[[msg' ?] _]]%Hback; [congruence|done].
      * split; [intros [= <-]; by apply Hhere|].
        intros [Heq|[[msg' ?] _]]%Hback; [congruence|done].
Qed.

(** C7, amended.  The counter tries "illumina1.8", "illumina1.3" and
    "sanger" in this order; it returns [n] exactly when some variant
    reads the file to its end with [n] records and every variant before
    it raised a [ValueError] (so a file whose variant is not the first
    is still counted), and it raises the could-not-be-opened
    [ValueError] exactly when every variant raised a [ValueError].  An
    exception of the reader that is no [ValueError] is not caught: it
    is the exception of the counter, at the first variant that raises
    it. *)
Theorem count_sequences_in_fastq_falls_through w file_path :
  variants = ["illumina1.8"; "illumina1.3"; "sanger"] /\
  (forall n,
     count_sequences_in_fastq w file_path = Ok n <->
     exists i variant sequences,
       variants !! i = Some variant /\
       skb_read w file_path variant = Ok sequences /\
       n = Z.of_nat (length sequences) /\
       forall j earlier, j < i -> variants !! j = Some earlier ->
         exists msg, skb_read w file_path earlier = Raise (ValueError msg)) /\
  (count_sequences_in_fastq w file_path =
     Raise (ValueError ("'" +:+ file_path +:+ " could not be opened")) <->
   forall variant, In variant variants ->
     exists msg, skb_read w file_path variant = Raise (ValueError msg)) /\
  (forall msg,
     count_sequences_in_fastq w file_path = Raise (ValueError msg) ->
     msg = "'" +:+ file_path +:+ " could not be opened") /\
  (forall i variant e,
     variants !! i = Some variant ->
     skb_read w file_path variant = Raise e ->
     (forall msg, e <> ValueError msg) ->
     (forall j earlier, j < i -> variants !! j = Some earlier ->
        exists msg, skb_read w file_path earlier = Raise (ValueError msg)) ->
     count_sequences_in_fastq w file_path = Raise e).
Proof.
  unfold count_sequences_in_fastq. split; [done|]. split; [|split; [|split]].
  - intros n. apply try_variants_Ok.
  - rewrite try_variants_ValueError. split; [by intros [_ H]|by intros H].
  - intros msg H. by apply try_variants_ValueError in H as [-> _].
  - intros i variant e Hi Hr He Hearlier.
    apply try_variants_other; [done|]. by exists i, variant.
Qed.

(** C7, as stated, fails.  No variant parses the file of the run
    [run_not_fastq], which is not a FASTQ file: the reader raises its
    format error for each; and the counter does not raise its
    could-not-be-opened error, it raises the format error. *)
Lemma count_sequences_in_fastq_format_error :
  (forall variant,
     In variant variants ->
     skb_read run_not_fastq "run/notes.txt" variant =
       Raise (OtherError "FASTQFormatError")) /\
  count_sequences_in_fastq run_not_fastq "run/notes.txt" =
    Raise (OtherError "FASTQFormatError") /\
  count_sequences_in_fastq run_not_fastq "run/notes.txt" <>
    Raise (ValueError "'run/notes.txt could not be opened").
Proof. split; [done|]. split; [by vm_compute|done]. Qed.

(** ** Direct counts *)

Lemma app_eq_empty s t : s +:+ t = "" -> s = "" /\ t = "".
Proof. destruct s; simpl; [done|done]. Qed.

Lemma join2_nonempty path b : b <> "" -> join2 path b <> "".
Proof.
  intros Hb. unfold join2. destruct (startswith sep b); [done|].
  destruct ((path =? "")%string || endswith sep path).
  - intros [_ ?]%app_eq_empty. done.
  - intros [_ ?]%app_eq_empty. done.
Qed.

Lemma truthy_true s : s <> "" -> truthy s = true.
Proof.
  intros Hs. unfold truthy. destruct (String.eqb_spec s ""); [done|done].
Qed.

Lemma sequences_subdir_filtered run_dir project :
  sequences_subdir run_dir project =
    Ok (join run_dir [project; "filtered_sequences"]).
Proof.
  unfold sequences_subdir. simpl. rewrite truthy_true; [done|].
  by apply join2_nonempty.
Qed.

Lemma pairs_snoc {A : Type} (l : list A) (x : A) :
  Nat.even (length l) = true -> pairs (l ++ [x]) = pairs l.
Proof.
  assert (H : forall n (l : list A),
             length l = 2 * n -> pairs (l ++ [x]) = pairs l).
  { intros n. induction n as [|n IH]; intros l0 Hlen.
    - by destruct l0.
    - destruct l0 as [|a [|b l0]]; simpl in Hlen; try lia.
      simpl. f_equal. apply IH. lia. }
  intros Heven. apply Nat.even_spec in Heven as [n Hn]. by apply (H n).
Qed.

(** C10.  When the sorted glob of one project and lane has an odd
    number of files, the loop over consecutive pairs never sees the
    last one: the rows, and the exception if there is one, are those of
    the files before it. *)
Theorem count_project_ignores_unpaired w run_dir rows project lane files last :
  sorted
    (glob w (join (join run_dir [project; "filtered_sequences"])
               ["*_L" +:+ zfill 3 lane +:+ "_R?_001.trimmed.fastq.gz"]))
    = files ++ [last] ->
  Nat.even (length files) = true ->
  count_project w run_dir rows (project, lane) =
    for_each (count_pair w lane) (pairs files) rows.
Proof.
  intros Hglob Heven. unfold count_project.
  rewrite sequences_subdir_filtered. simpl fst. simpl snd.
  unfold rbind at 1. rewrite Hglob. by rewrite pairs_snoc.
Qed.

Lemma count_project_ignores_unpaired_witness :
  count_project run_three_files "run" [] ("P", "1") =
    Ok [(("S1", "1"), Fin 80)] /\
  for_each (count_pair run_three_files "1")
    (pairs ["run/P/filtered_sequences/S1_S1_L001_R1_001.trimmed.fastq.gz";
            "run/P/filtered_sequences/S1_S1_L001_R2_001.trimmed.fastq.gz"])
    [] = Ok [(("S1", "1"), Fin 80)].
Proof.
  split; [|vm_compute; reflexivity].
  rewrite (count_project_ignores_unpaired run_three_files "run" [] "P" "1"
             ["run/P/filtered_sequences/S1_S1_L001_R1_001.trimmed.fastq.gz";
              "run/P/filtered_sequences/S1_S1_L001_R2_001.trimmed.fastq.gz"]
             "run/P/filtered_sequences/S2_S2_L001_R1_001.trimmed.fastq.gz");
    vm_compute; reflexivity.
Defined.

(** C3.  The directory of a project is chosen without looking at the
    disk: the condition is the truth value of a path, which is never
    empty, so [filtered_sequences] is taken in every run, the second
    candidate and the error are never reached; in the run
    [run_only_trimmed], where only [trimmed_sequences] exists, the
    table of direct counts is empty and nothing is raised. *)
Theorem sequences_subdir_ignores_disk :
  (forall run_dir project,
     sequences_subdir run_dir project =
       Ok (join run_dir [project; "filtered_sequences"])) /\
  path_exists run_only_trimmed "run/P/filtered_sequences" = false /\
  path_exists run_only_trimmed "run/P/trimmed_sequences" = true /\
  direct_sequence_counts run_only_trimmed "run" sheet_S1 = Ok [].
Proof.
  split; [apply sequences_subdir_filtered|]. by vm_compute.
Qed.

(** ** Demultiplex counts *)

Lemma set_index_Ok {V} w (rows : list (key * V)) t :
  set_index w rows = Ok t <-> t = rows /\ NoDup (map fst rows).
Proof.
  unfold set_index. destruct (bool_decide_reflect (NoDup (map fst rows))).
  - split; [by intros [= <-]|by intros [-> _]].
  - split; [done|]. by intros [_ ?].
Qed.

Lemma for_each_invariant {A S} (P : S -> Prop) (body : S -> A -> result S)
    xs acc r :
  P acc ->
  (forall s x s', In x xs -> P s -> body s x = Ok s' -> P s') ->
  for_each body xs acc = Ok r -> P r.
Proof.
  revert acc. induction xs as [|x xs IH]; intros acc Hacc Hstep; simpl.
  - by intros [= <-].
  - destruct (body acc x) as [acc'|e] eqn:Hb; simpl; [|done].
    apply IH.
    + eapply Hstep; [by left|exact Hacc|exact Hb].
    + intros s y s' Hy. apply Hstep. by right.
Qed.

Lemma for_each_append {A B} (body : list B -> A -> result (list B))
    (g : A -> B) xs acc :
  (forall s x, In x xs -> body s x = Ok (s ++ [g x])) ->
  for_each body xs acc = Ok (acc ++ map g xs).
Proof.
  revert acc. induction xs as [|x xs IH]; intros acc Hbody; simpl.
  - by rewrite app_nil_r.
  - rewrite Hbody by (by left). simpl. rewrite IH.
    + by rewrite <- app_assoc.
    + intros s y Hy. apply Hbody. by right.
Qed.

Lemma bclconvert_counts_Ok w path t :
  _bclconvert_counts w path = Ok t <->
  t = bclconvert_rows (read_csv w path) /\
  NoDup (map fst (bclconvert_rows (read_csv w path))).
Proof. unfold _bclconvert_counts. apply set_index_Ok. Qed.

Lemma bclconvert_rows_lane lines :
  Forall lane_as_string (bclconvert_rows lines).
Proof.
  unfold bclconvert_rows. apply List.Forall_forall.
  intros kv [r [<- _]]%in_map_iff. by exists (csv_Lane r).
Qed.

Lemma bcl2fastq_counts_json_lane w path t :
  _bcl2fastq_counts w path = Ok t ->
  NoDup (map fst t) /\ Forall lane_as_string t.
Proof.
  unfold _bcl2fastq_counts.
  destruct (ConversionResults (load_stats w path)) as [lanes|]; [|done].
  simpl.
  destruct (for_each _ lanes []) as [out|e] eqn:Hout; [|done]. simpl.
  apply (for_each_invariant
           (fun out => Forall (Forall lane_as_string) out)) in Hout.
  - destruct out as [|o out]; [done|].
    destruct (concat (o :: out)) as [|kv rows] eqn:Hrows; [done|].
    intros [-> Hnd]%set_index_Ok. split; [done|].
    rewrite <- Hrows. apply Forall_concat. exact Hout.
  - constructor.
  - intros s lane s' _ Hs.
    destruct (DemuxResults lane) as [results|]; [|done].
    destruct (LaneNumber lane) as [number|]; [|done]. simpl.
    intros [= <-]. apply Forall_app. split; [done|].
    constructor; [|constructor]. apply List.Forall_forall.
    intros kv [d [<- _]]%in_map_iff. by exists number.
Qed.

Lemma bcl2fastq_counts_json_complete w path lanes :
  ConversionResults (load_stats w path) = Some lanes ->
  Forall complete_lane lanes ->
  flat_map conversion_rows lanes <> [] ->
  NoDup (map fst (flat_map conversion_rows lanes)) ->
  _bcl2fastq_counts w path = Ok (flat_map conversion_rows lanes).
Proof.
  intros Hl Hc Hne Hnd. unfold _bcl2fastq_counts. rewrite Hl. simpl.
  rewrite (for_each_append _ conversion_rows).
  - cbn [rbind app]. rewrite <- flat_map_concat_map.
    remember (flat_map conversion_rows lanes) as rows eqn:Hrows.
    destruct lanes as [|lane lanes]; [by subst|].
    simpl map. destruct rows as [|kv rows]; [done|].
    match goal with
    | |- match ?x with _ => _ end = _ =>
        assert (Hx : x = kv :: rows) by (symmetry; exact Hrows); rewrite Hx
    end.
    apply set_index_Ok. by split.
  - intros s lane Hin. rewrite List.Forall_forall in Hc.
    destruct (Hc lane Hin) as [[results Hr] [number Hn]].
    unfold conversion_rows. rewrite Hr, Hn. done.
Qed.

(** C4.  The demultiplex aggregator probes the two report paths.  Both
    present: an [IOError]; neither present: an [IOError]; exactly one
    present: the result of the parser of that report.  A table that is
    returned has no key twice and every key holds the lane as a string;
    and a report does return its table: the tabular one whenever its
    keys are distinct, the structured one whenever every lane block has
    its keys, some sample is reported and the keys are distinct. *)
Theorem bcl2fastq_counts_one_report w run_dir sample_sheet :
  let bcl2fastq_path := join (abspath w run_dir) ["Stats/Stats.json"] in
  let bclconvert_path :=
    join (abspath w run_dir) ["Reports/Demultiplex_Stats.csv"] in
  (path_exists w bcl2fastq_path = true ->
   path_exists w bclconvert_path = true ->
   bcl2fastq_counts w run_dir sample_sheet =
     Raise (IOError ("both '" +:+ bcl2fastq_path +:+ "' and '"
                     +:+ bclconvert_path +:+ "' exist"))) /\
  (path_exists w bcl2fastq_path = false ->
   path_exists w bclconvert_path = false ->
   exists msg, bcl2fastq_counts w run_dir sample_sheet = Raise (IOError msg)) /\
  (path_exists w bcl2fastq_path = true ->
   path_exists w bclconvert_path = false ->
   bcl2fastq_counts w run_dir sample_sheet = _bcl2fastq_counts w bcl2fastq_path /\
   forall lanes,
     ConversionResults (load_stats w bcl2fastq_path) = Some lanes ->
     Forall complete_lane lanes ->
     flat_map conversion_rows lanes <> [] ->
     NoDup (map fst (flat_map conversion_rows lanes)) ->
     bcl2fastq_counts w run_dir sample_sheet = Ok (flat_map conversion_rows lanes)) /\
  (path_exists w bcl2fastq_path = false ->
   path_exists w bclconvert_path = true ->
   bcl2fastq_counts w run_dir sample_sheet = _bclconvert_counts w bclconvert_path /\
   (NoDup (map fst (bclconvert_rows (read_csv w bclconvert_path))) ->
    bcl2fastq_counts w run_dir sample_sheet =
      Ok (bclconvert_rows (read_csv w bclconvert_path)))) /\
  (forall t,
     bcl2fastq_counts w run_dir sample_sheet = Ok t ->
     NoDup (map fst t) /\
     forall k v, In (k, v) t -> exists lane : Z, snd k = str lane).
Proof.
  intros bcl2fastq_path bclconvert_path. unfold bcl2fastq_counts.
  fold bcl2fastq_path. fold bclconvert_path.
  split; [by intros -> ->|]. split; [intros -> ->; eauto|].
  split; [|split].
  - intros -> ->. split; [done|]. apply bcl2fastq_counts_json_complete.
  - intros -> ->. split; [done|]. intros Hnd.
    by apply bclconvert_counts_Ok.
  - intros t Ht.
    assert (H : NoDup (map fst t) /\ Forall lane_as_string t).
    { destruct (path_exists w bcl2fastq_path),
        (path_exists w bclconvert_path); try done.
      - by apply bcl2fastq_counts_json_lane in Ht.
      - apply bclconvert_counts_Ok in Ht as [-> Hnd]. split; [done|].
        apply bclconvert_rows_lane. }
    destruct H as [Hnd Hlane]. split; [done|]. intros k v Hin.
    rewrite List.Forall_forall in Hlane. apply (Hlane _ Hin).
Qed.

(** ** Log locator *)

Lemma parsefier_sheet w run_dir samples subdir suffix name funk :
  _parsefier w run_dir (KLSampleSheet samples) subdir suffix name funk =
  match located_logs w run_dir samples subdir suffix with
  | Raise e => ([], Raise e)
  | Ok out =>
      match duplicated [] (retained samples out) with
      | [] =>
          (if bool_decide (found_of out ⊂ expected_of samples)
           then [no_log_found name (expected_of samples ∖ found_of out)]
           else [],
           parsed w funk (retained samples out))
      | dups => ([], Raise (ValueError (multiple_matches dups)))
      end
  end.
Proof.
  unfold _parsefier, located_logs, quiet, wbind.
  destruct (for_each _ _ _) as [out|e]; [|done].
  fold (retained samples out). fold (found_of out).
  destruct (duplicated [] (retained samples out)); [|done].
  by rewrite app_nil_r.
Qed.

Lemma duplicated_seen seen rows j r :
  rows !! j = Some r -> log_key r ∈ seen -> In r (duplicated seen rows).
Proof.
  revert seen j. induction rows as [|r0 rows IH]; intros seen j Hj Hseen.
  - done.
  - destruct j as [|j]; simpl in Hj.
    + injection Hj as ->. simpl. rewrite bool_decide_true by done. by left.
    + simpl. assert (In r (duplicated (log_key r0 :: seen) rows)) as Hin.
      { apply (IH _ j); [done|]. by right. }
      destruct (bool_decide (log_key r0 ∈ seen)); [by right|done].
Qed.

Lemma duplicated_later seen rows i j r1 r2 :
  i < j -> rows !! i = Some r1 -> rows !! j = Some r2 ->
  log_key r1 = log_key r2 -> In r2 (duplicated seen rows).
Proof.
  revert seen i j. induction rows as [|r0 rows IH]; intros seen i j Hij Hi Hj Hk.
  - done.
  - destruct j as [|j]; [lia|]. simpl in Hj.
    assert (In r2 (duplicated (log_key r0 :: seen) rows)) as Hin.
    { destruct i as [|i]; simpl in Hi.
      - injection Hi as ->. apply (duplicated_seen _ _ j); [done|].
        rewrite Hk. by left.
      - apply (IH _ i j); [lia|done|done|done]. }
    simpl. destruct (bool_decide (log_key r0 ∈ seen)); [by right|done].
Qed.

Lemma duplicated_In seen rows r :
  In r (duplicated seen rows) -> In r rows.
Proof.
  revert seen. induction rows as [|r0 rows IH]; intros seen; simpl; [done|].
  destruct (bool_decide (log_key r0 ∈ seen)).
  - intros [->|Hin]; [by left|right; eauto].
  - intros Hin. right. eauto.
Qed.


(** C5.  When two of the rows kept (two log files of samples of the
    sheet) carry the same (Sample_ID, Lane), the locator raises the
    [ValueError] of multiple matches, with no warning and no table; its
    message lists the rows flagged as duplicates, and every row that
    repeats the pair of an earlier row is among them, by its text
    "<sample> in lane <lane>". *)
Theorem parsefier_multiple_matches w run_dir samples subdir suffix name funk
    out i j r1 r2 :
  located_logs w run_dir samples subdir suffix = Ok out ->
  i < j ->
  retained samples out !! i = Some r1 ->
  retained samples out !! j = Some r2 ->
  log_key r1 = log_key r2 ->
  let dups := duplicated [] (retained samples out) in
  _parsefier w run_dir (KLSampleSheet samples) subdir suffix name funk =
    ([], Raise (ValueError (multiple_matches dups))) /\
  multiple_matches dups =
    "Multiple matches found for the same samples in the same lane, only one match is expected: "
    +:+ String.concat ", " (map pair_text dups) /\
  (forall i' j' r r',
     i' < j' ->
     retained samples out !! i' = Some r ->
     retained samples out !! j' = Some r' ->
     log_key r = log_key r' ->
     In (Log.Sample_ID r' +:+ " in lane " +:+ Log.Lane r')
        (map pair_text dups)) /\
  (forall r, In r dups -> In r (retained samples out)).
Proof.
  intros Hout Hij Hi Hj Hk dups.
  assert (Hin : In r2 dups) by by eapply duplicated_later.
  split; [|split; [done|split]].
  - rewrite parsefier_sheet, Hout. fold dups. by destruct dups.
  - intros i' j' r r' Hij' Hi' Hj' Hk'.
    apply (in_map pair_text). by eapply duplicated_later.
  - intros r. apply duplicated_In.
Qed.

Lemma parsefier_multiple_matches_witness :
  fastp_counts run_repeated_demux "run" (KLSampleSheet samples_S1) =
    ([], Raise (ValueError
                  "Multiple matches found for the same samples in the same lane, only one match is expected: S1 in lane 1")).
Proof.
  apply (parsefier_multiple_matches run_repeated_demux "run" samples_S1
           "json" ".json" "total_biological_reads_r1r2"
           (_parse_fastp_counts run_repeated_demux)
           [ {| Log.Sample_ID := "S1"; Log.Lane := "1";
                Log.Sample_Project := "P";
                Log.path := "run/P/json/S1_S1_L001_R1_001.json" |};
             {| Log.Sample_ID := "S1"; Log.Lane := "1";
                Log.Sample_Project := "P";
                Log.path := "run/P/json/S1_S2_L001_R1_001.json" |} ]
           0 1
           {| Log.Sample_ID := "S1"; Log.Lane := "1";
              Log.Sample_Project := "P";
              Log.path := "run/P/json/S1_S1_L001_R1_001.json" |}
           {| Log.Sample_ID := "S1"; Log.Lane := "1";
              Log.Sample_Project := "P";
              Log.path := "run/P/json/S1_S2_L001_R1_001.json" |});
    [vm_compute; reflexivity|lia|vm_compute; reflexivity..].
Defined.



Lemma table_lookup_None {V} (k : key) (t : table V) :
  ~ In k (map fst t) -> table_lookup k t = None.
Proof.
  induction t as [|[k' v] t IH]; simpl; [done|].
  intros Hk. destruct (bool_decide_reflect (k' = k)) as [->|_].
  - exfalso. apply Hk. by left.
  - apply IH. intros Hin. apply Hk. by right.
Qed.

Lemma retained_In samples out r :
  In r (retained samples out) -> In r out.
Proof.
  unfold retained. rewrite <- !list_elem_of_In, list_elem_of_filter.
  by intros [_ ?].
Qed.

Lemma found_of_spec out s :
  s ∈ found_of out <-> exists r, In r out /\ Log.Sample_ID r = s.
Proof.
  unfold found_of. rewrite elem_of_list_to_set, list_elem_of_In, in_map_iff.
  split; intros (r & ? & ?); eauto.
Qed.

Lemma expected_of_spec samples s :
  s ∈ expected_of samples <-> exists smp, In smp samples /\ Sample_ID smp = s.
Proof.
  unfold expected_of. rewrite elem_of_list_to_set, list_elem_of_In, in_map_iff.
  split; intros (r & ? & ?); eauto.
Qed.




(** The same silence when a log of a sample outside the sheet lies in
    the directory: S2 has no log, and nothing is warned, because the
    sample names found are then no subset of those of the sheet. *)
Lemma parsefier_extra_log_silences_warning :
  fastp_counts run_missing_S2_extra_S3 "run" (KLSampleSheet samples_S1_S2) =
    ([], Ok [(("S1", "1"), Fin 90)]).
Proof. vm_compute. reflexivity. Qed.

(** ** Run aggregator *)

Lemma wbind_Ok {A B} (m : warned A) (k : A -> warned B) ws b :
  wbind m k = (ws, Ok b) ->
  exists a, snd m = Ok a /\ snd (k a) = Ok b.
Proof.
  unfold wbind. destruct m as [ws' [a|e]]; [|done].
  destruct (k a) as [ws'' r] eqn:Hk. intros [= _ ->]. exists a.
  by rewrite Hk.
Qed.

Lemma run_counts_Ok w run_dir md ws rows :
  run_counts w run_dir md = (ws, Ok rows) ->
  exists demux fastp minimap2 direct,
    bcl2fastq_counts w run_dir md = Ok demux /\
    snd (fastp_counts w run_dir md) = Ok fastp /\
    snd (minimap2_counts w run_dir md) = Ok minimap2 /\
    direct_sequence_counts w run_dir md = Ok direct /\
    rows = aggregate demux fastp minimap2 direct.
Proof.
  unfold run_counts. intros H.
  apply wbind_Ok in H as (demux & Hdemux & H).
  destruct (wbind (fastp_counts w run_dir md) _) as [ws1 r1] eqn:H1.
  simpl in H. subst r1.
  apply wbind_Ok in H1 as (fastp & Hfastp & H).
  destruct (wbind (minimap2_counts w run_dir md) _) as [ws2 r2] eqn:H2.
  simpl in H. subst r2.
  apply wbind_Ok in H2 as (minimap2 & Hminimap2 & H).
  destruct (wbind (quiet (direct_sequence_counts w run_dir md)) _)
    as [ws3 r3] eqn:H3.
  simpl in H. subst r3.
  apply wbind_Ok in H3 as (direct & Hdirect & H).
  simpl in *. injection H as <-. by exists demux, fastp, minimap2, direct.
Qed.

Lemma count_sequences_nonneg w file_path n :
  count_sequences_in_fastq w file_path = Ok n -> (0 <= n)%Z.
Proof.
  intros (_ & _ & ? & _ & _ & -> & _)%try_variants_Ok. lia.
Qed.

Lemma count_pair_counted w lane rows r1r2 rows' :
  Forall counted rows -> count_pair w lane rows r1r2 = Ok rows' ->
  Forall counted rows'.
Proof.
  intros Hrows. unfold count_pair.
  destruct (re_match reg (basename r1r2.1)) as [m_r1|]; [|done].
  destruct (re_match reg (basename r1r2.2)) as [m_r2|]; [|done].
  destruct (bool_decide (m_r1 ≠ m_r2)); [done|].
  destruct (count_sequences_in_fastq w r1r2.1) as [c1|] eqn:H1; [|done].
  destruct (count_sequences_in_fastq w r1r2.2) as [c2|] eqn:H2; [|done].
  simpl. intros [= <-]. apply Forall_app. split; [done|].
  constructor; [|constructor]. exists (c1 + c2)%Z. split; [|done].
  apply count_sequences_nonneg in H1, H2. lia.
Qed.

Lemma direct_sequence_counts_counted w run_dir md direct :
  direct_sequence_counts w run_dir md = Ok direct -> Forall counted direct.
Proof.
  unfold direct_sequence_counts. destruct md as [samples|]; [|done].
  destruct (for_each _ _ _) as [rows|e] eqn:Hrows; [|done]. simpl.
  intros [-> _]%set_index_Ok.
  apply (for_each_invariant (Forall counted)) in Hrows; [done|constructor|].
  intros s pl s' _ Hs. unfold count_project.
  destruct (sequences_subdir run_dir pl.1) as [subdir|]; [|done]. simpl.
  apply for_each_invariant; [done|].
  intros ? ? ? _. apply count_pair_counted.
Qed.

Lemma table_lookup_Some {V} (k : key) (t : table V) v :
  table_lookup k t = Some v -> In (k, v) t.
Proof.
  induction t as [|[k' v'] t IH]; simpl; [done|].
  destruct (bool_decide_reflect (k' = k)) as [->|_].
  - intros [= ->]. by left.
  - intros H. right. auto.
Qed.

Lemma Qeq_bool_inject_Z z : Qeq_bool (inject_Z z) 0 = (z =? 0)%Z.
Proof.
  unfold Qeq_bool, inject_Z. simpl. by rewrite Z.mul_1_r.
Qed.

Lemma Qneg_bool_inject_Z z : (0 <= z)%Z -> Qneg_bool (inject_Z z) = false.
Proof.
  intros Hz. unfold Qneg_bool, Qle_bool, inject_Z. simpl.
  apply negb_false_iff. apply Z.leb_le. lia.
Qed.

Lemma fdiv_counts c raw :
  (0 <= c)%Z ->
  fdiv (float_of_int c) (float_of_int raw) =
    if (raw =? 0)%Z then if (c =? 0)%Z then NaN else Inf false
    else Fin (Qred (inject_Z c / inject_Z raw)).
Proof.
  intros Hc. unfold fdiv, float_of_int.
  rewrite !Qeq_bool_inject_Z, Qneg_bool_inject_Z by done. done.
Qed.

(** C1, amended.  In a table that [run_counts] returns, the rows are
    those of the demultiplex table, in its order.  A cell whose value
    is missing is "NA": the direct count of a key that the direct-count
    table lacks, and the fraction computed from it.  When the direct
    count [c] is present, [fraction_passing_quality_filter] is [c / raw]
    for [raw <> 0]; for [raw = 0] it is "NA" when [c = 0] too, and the
    infinity, which [fillna] leaves in place, when [c <> 0]. *)
Theorem run_counts_fraction_passing_quality_filter w run_dir md ws rows :
  run_counts w run_dir md = (ws, Ok rows) ->
  exists demux direct,
    bcl2fastq_counts w run_dir md = Ok demux /\
    direct_sequence_counts w run_dir md = Ok direct /\
    map index rows = map fst demux /\
    forall row, In row rows ->
      exists raw : Z,
        In (index row, raw) demux /\
        raw_reads_r1r2 row = Num (float_of_int raw) /\
        match table_lookup (index row) direct with
        | None =>
            quality_filtered_reads_r1r2 row = NA /\
            fraction_passing_quality_filter row = NA
        | Some x =>
            exists c : Z,
              (0 <= c)%Z /\ x = float_of_int c /\
              quality_filtered_reads_r1r2 row = Num (float_of_int c) /\
              (raw <> 0%Z ->
               fraction_passing_quality_filter row =
                 Num (Fin (Qred (inject_Z c / inject_Z raw)))) /\
              (raw = 0%Z -> c = 0%Z ->
               fraction_passing_quality_filter row = NA) /\
              (raw = 0%Z -> c <> 0%Z ->
               fraction_passing_quality_filter row = Num (Inf false))
        end.
Proof.
  intros (demux & fastp & minimap2 & direct & Hdemux & _ & _ & Hdirect & ->)
    %run_counts_Ok.
  exists demux, direct. split; [done|]. split; [done|]. split.
  { unfold aggregate. rewrite map_map. done. }
  intros row ([k raw] & <- & Hin)%in_map_iff.
  exists raw. split; [done|]. split; [done|].
  unfold aggregate_row. simpl. unfold joined.
  destruct (table_lookup k direct) as [x|] eqn:Hk; [|done].
  apply table_lookup_Some in Hk.
  apply direct_sequence_counts_counted in Hdirect.
  rewrite List.Forall_forall in Hdirect.
  destruct (Hdirect _ Hk) as (c & Hc & Hx). simpl in Hx. subst x.
  exists c. split; [done|]. split; [done|]. split; [done|].
  rewrite fdiv_counts by done.
  split; [|split].
  - intros Hraw. by rewrite (proj2 (Z.eqb_neq raw 0) Hraw).
  - by intros -> ->.
  - intros -> Hne. by rewrite (proj2 (Z.eqb_neq c 0) Hne).
Qed.

Lemma run_counts_fraction_passing_quality_filter_witness :
  exists demux direct,
    bcl2fastq_counts (run_of_S1 100) "run" sheet_S1 = Ok demux /\
    direct_sequence_counts (run_of_S1 100) "run" sheet_S1 = Ok direct /\
    map index
      [{| index := ("S1", "1");
          raw_reads_r1r2 := Num (Fin 200);
          total_biological_reads_r1r2 := Num (Fin 90);
          non_host_reads := Num (Fin 20);
          quality_filtered_reads_r1r2 := Num (Fin 80);
          fraction_passing_quality_filter := Num (Fin (2 # 5));
          fraction_non_human := Num (Fin (1 # 4)) |}] = map fst demux.
Proof.
  destruct (run_counts_fraction_passing_quality_filter (run_of_S1 100) "run"
              sheet_S1 []
              [{| index := ("S1", "1");
                  raw_reads_r1r2 := Num (Fin 200);
                  total_biological_reads_r1r2 := Num (Fin 90);
                  non_host_reads := Num (Fin 20);
                  quality_filtered_reads_r1r2 := Num (Fin 80);
                  fraction_passing_quality_filter := Num (Fin (2 # 5));
                  fraction_non_human := Num (Fin (1 # 4)) |}])
    as (demux & direct & H1 & H2 & H3 & _); [vm_compute; reflexivity|].
  by exists demux, direct.
Defined.

(** C1, as stated, fails.  With no reads at demultiplexing and 80
    records in the filtered files, the denominator is zero and the
    cell is not "NA": it holds the infinity. *)
Lemma run_counts_zero_raw_reads_is_not_NA :
  exists row,
    run_counts (run_of_S1 0) "run" sheet_S1 = ([], Ok [row]) /\
    raw_reads_r1r2 row = Num (Fin 0) /\
    quality_filtered_reads_r1r2 row = Num (Fin 80) /\
    fraction_passing_quality_filter row = Num (Inf false) /\
    fraction_passing_quality_filter row <> NA.
Proof.
  eexists. split; [vm_compute; reflexivity|]. by simpl.
Qed.

(** The end-to-end scenario of the specification: a tabular report
    line of 100 reads, 90 reads after trimming, a host-filter log of 40
    reads and 80 records in the filtered files. *)
Example run_counts_end_to_end :
  run_counts (run_of_S1 100) "run" sheet_S1 =
    ([], Ok [{| index := ("S1", "1");
                raw_reads_r1r2 := Num (Fin 200);
                total_biological_reads_r1r2 := Num (Fin 90);
                non_host_reads := Num (Fin 20);
                quality_filtered_reads_r1r2 := Num (Fin 80);
                fraction_passing_quality_filter := Num (Fin (2 # 5));
                fraction_non_human := Num (Fin (1 # 4)) |}]).
Proof. vm_compute. reflexivity. Qed.

(** * Further properties *)

(** ** Loops that stop at the first exception *)

Lemma for_each_app {A S} (body : S -> A -> result S) xs ys acc :
  for_each body (xs ++ ys) acc =
    let* acc' := for_each body xs acc in for_each body ys acc'.
Proof.
  revert acc. induction xs as [|x xs IH]; intros acc; simpl; [done|].
  destruct (body acc x); simpl; [apply IH|done].
Qed.

Lemma for_each_Raise {A S} (body : S -> A -> result S) xs acc e :
  for_each body xs acc = Raise e ->
  exists before x after acc',
    xs = before ++ x :: after /\
    for_each body before acc = Ok acc' /\ body acc' x = Raise e.
Proof.
  revert acc. induction xs as [|x xs IH]; intros acc; simpl; [done|].
  destruct (body acc x) as [acc1|e1] eqn:Hx; simpl.
  - intros (before & y & after & acc' & -> & Hb & Hy)%IH.
    exists (x :: before), y, after, acc'. simpl. rewrite Hx. by simpl.
  - intros [= ->]. by exists [], x, xs, acc.
Qed.

(** ** Trimming-report parser *)

Lemma int_not_KeyError v msg : int v <> Raise (KeyError msg).
Proof.
  unfold int. destruct v as [|b|z|[| |q]|s|items|fields]; try done.
  unfold int_of_str. repeat case_match; done.
Qed.

(** X1.  The parser of a fastp report returns a count exactly when
    the report is an object with an object under "summary", an object
    under "after_filtering" in it, and under "total_reads" in that a
    value that [int] converts; the count is that conversion.  With one
    of the three keys absent from its object it raises the
    [ValueError] that names the path; with [null], a boolean or a
    number where "summary" or "after_filtering" should hold an object
    it raises a [TypeError]; and it never raises a [KeyError]. *)
Theorem parse_fastp_counts_keys w path :
  let outcome := _parse_fastp_counts w path in
  let malformed : result pynum :=
    Raise (ValueError ("The fastp log for " +:+ path +:+ " is malformed")) in
  (forall n,
     outcome = Ok n <->
     exists stats summary after_filtering total_reads z,
       load_fastp w path = VDict stats /\
       dict_get "summary" stats = Some (VDict summary) /\
       dict_get "after_filtering" summary = Some (VDict after_filtering) /\
       dict_get "total_reads" after_filtering = Some total_reads /\
       int total_reads = Ok z /\ n = PyInt z) /\
  (forall stats,
     load_fastp w path = VDict stats ->
     (dict_get "summary" stats = None -> outcome = malformed) /\
     (forall summary,
        dict_get "summary" stats = Some (VDict summary) ->
        (dict_get "after_filtering" summary = None -> outcome = malformed) /\
        (forall after_filtering,
           dict_get "after_filtering" summary = Some (VDict after_filtering) ->
           (dict_get "total_reads" after_filtering = None ->
            outcome = malformed) /\
           (forall total_reads,
              dict_get "total_reads" after_filtering = Some total_reads ->
              outcome = let* z := int total_reads in Ok (PyInt z))))) /\
  (forall stats v,
     load_fastp w path = VDict stats ->
     dict_get "summary" stats = Some v \/
     (exists summary,
        dict_get "summary" stats = Some (VDict summary) /\
        dict_get "after_filtering" summary = Some v) ->
     v = VNone \/ (exists b, v = VBool b) \/ (exists z, v = VInt z) \/
     (exists x, v = VFloat x) ->
     exists msg, outcome = Raise (TypeError msg)) /\
  (forall msg, outcome <> Raise (KeyError msg)).
Proof.
  intros outcome malformed. subst outcome malformed.
  unfold _parse_fastp_counts.
  split; [|split; [|split]].
  - intros n. split.
    + destruct (load_fastp w path) as [|b|z|x|s|items|stats]; try done.
      { cbn [contains rbind]. destruct (is_substring _ s); done. }
      { cbn [contains rbind]. destruct (existsb _ items); done. }
      cbn [contains getitem rbind].
      destruct (dict_get "summary" stats) as [summary|] eqn:H1; [|done].
      cbn [negb rbind].
      destruct summary as [|b|z|x|s|items|summary]; try done.
      { cbn [contains rbind]. destruct (is_substring _ s); done. }
      { cbn [contains rbind]. destruct (existsb _ items); done. }
      cbn [contains getitem rbind].
      destruct (dict_get "after_filtering" summary) as [after|] eqn:H2; [|done].
      cbn [negb rbind].
      destruct after as [|b|z|x|s|items|after]; try done.
      { cbn [contains rbind]. destruct (is_substring _ s); done. }
      { cbn [contains rbind]. destruct (existsb _ items); done. }
      cbn [contains getitem rbind].
      destruct (dict_get "total_reads" after) as [total|] eqn:H3; [|done].
      cbn [negb rbind].
      destruct (int total) as [z|e] eqn:Hz; [|done]. cbn [rbind].
      intros [= <-]. by exists stats, summary, after, total, z.
    + intros (stats & summary & after & total & z & -> & H1 & H2 & H3 & Hz & ->).
      cbn [contains getitem rbind]. rewrite H1. cbn [contains getitem negb rbind].
      rewrite H2. cbn [contains getitem negb rbind]. rewrite H3.
      cbn [negb rbind]. by rewrite Hz.
  - intros stats ->. cbn [contains getitem rbind]. split; [by intros ->|].
    intros summary ->. cbn [contains getitem negb rbind].
    split; [by intros ->|].
    intros after ->. cbn [contains getitem negb rbind].
    split; [by intros ->|]. by intros total ->.
  - intros stats v -> Hv Hscalar. cbn [contains getitem rbind].
    destruct Hv as [H1|(summary & H1 & H2)]; rewrite H1;
      cbn [contains getitem negb rbind]; [|rewrite H2];
      destruct Hscalar as [->|[[b ->]|[[z ->]|[x ->]]]]; by eexists.
  - intros msg.
    destruct (load_fastp w path) as [|b|z|x|s|items|stats]; try done.
    { cbn [contains rbind]. destruct (is_substring _ s); done. }
    { cbn [contains rbind]. destruct (existsb _ items); done. }
    cbn [contains getitem rbind].
    destruct (dict_get "summary" stats) as [summary|] eqn:H1; [|done].
    cbn [negb rbind].
    destruct summary as [|b|z|x|s|items|summary]; try done.
    { cbn [contains rbind]. destruct (is_substring _ s); done. }
    { cbn [contains rbind]. destruct (existsb _ items); done. }
    cbn [contains getitem rbind].
    destruct (dict_get "after_filtering" summary) as [after|] eqn:H2; [|done].
    cbn [negb rbind].
    destruct after as [|b|z|x|s|items|after]; try done.
    { cbn [contains rbind]. destruct (is_substring _ s); done. }
    { cbn [contains rbind]. destruct (existsb _ items); done. }
    cbn [contains getitem rbind].
    destruct (dict_get "total_reads" after) as [total|] eqn:H3; [|done].
    cbn [negb rbind].
    destruct (int total) as [z|e] eqn:Hz; [done|]. cbn [rbind].
    intros [= ->]. by apply int_not_KeyError in Hz.
Qed.

(** ** Direct sequence counter *)

(** X2.  The counter fails in two ways only.  It raises its own
    [ValueError] when every variant raised a [ValueError]; and an
    exception of the reader that is no [ValueError] leaves the counter
    as it is, at the first variant that raises it, whatever the
    variants after it would give. *)
Theorem count_sequences_in_fastq_raises w file_path e :
  count_sequences_in_fastq w file_path = Raise e <->
  (e = ValueError ("'" +:+ file_path +:+ " could not be opened") /\
   forall variant, In variant variants ->
     exists msg, skb_read w file_path variant = Raise (ValueError msg)) \/
  ((forall msg, e <> ValueError msg) /\
   exists i variant,
     variants !! i = Some variant /\
     skb_read w file_path variant = Raise e /\
     forall j earlier, j < i -> variants !! j = Some earlier ->
       exists msg, skb_read w file_path earlier = Raise (ValueError msg)).
Proof.
  unfold count_sequences_in_fastq. split.
  - intros H. destruct e as [msg|msg|msg|msg|msg|msg].
    + left. by apply try_variants_ValueError in H as [-> ?].
    + right. split; [done|]. by apply try_variants_other in H.
    + right. split; [done|]. by apply try_variants_other in H.
    + right. split; [done|]. by apply try_variants_other in H.
    + right. split; [done|]. by apply try_variants_other in H.
    + right. split; [done|]. by apply try_variants_other in H.
  - intros [[-> H]|[He H]].
    + by apply try_variants_ValueError.
    + by apply try_variants_other.
Qed.

(** ** Demultiplex counts *)

Lemma conversion_loop_Ok (lanes : list conversion_result) acc out :
  for_each
    (fun out lane =>
       let* results := _safe_get (DemuxResults lane) "DemuxResults" in
       let* number := _safe_get (LaneNumber lane) "LaneNumber" in
       Ok (out ++ [map (fun d => ((SampleId d, str number), NumberReads d))
                     results]))
    lanes acc = Ok out ->
  Forall complete_lane lanes /\ out = acc ++ map conversion_rows lanes.
Proof.
  revert acc. induction lanes as [|lane lanes IH]; intros acc; simpl.
  - intros [= <-]. split; [constructor|by rewrite app_nil_r].
  - destruct (DemuxResults lane) as [results|] eqn:Hr; [|done].
    destruct (LaneNumber lane) as [number|] eqn:Hn; [|done]. simpl.
    intros [Hc ->]%IH. split.
    + constructor; [|done]. split; by eexists.
    + rewrite <- app_assoc. simpl. unfold conversion_rows at 2.
      by rewrite Hr, Hn.
Qed.

(** X3.  The parser of the structured report returns a table exactly
    when the report has "ConversionResults", every lane block has
    "DemuxResults" and "LaneNumber", at least one sample is reported,
    and no (sample, lane) is reported twice; the table is then the rows
    of the lane blocks, one block after the other. *)
Theorem bcl2fastq_counts_json_returns w path t :
  _bcl2fastq_counts w path = Ok t <->
  exists lanes,
    ConversionResults (load_stats w path) = Some lanes /\
    Forall complete_lane lanes /\
    t = flat_map conversion_rows lanes /\
    t <> [] /\ NoDup (map fst t).
Proof.
  split.
  - unfold _bcl2fastq_counts.
    destruct (ConversionResults (load_stats w path)) as [lanes|]; [|done].
    simpl. destruct (for_each _ lanes []) as [out|e] eqn:Hout; [|done].
    apply conversion_loop_Ok in Hout as [Hc ->]. simpl.
    destruct (map conversion_rows lanes) as [|o out] eqn:Hmap; [done|].
    rewrite <- Hmap, <- flat_map_concat_map.
    match goal with
    | |- match ?x with _ => _ end = _ -> _ =>
        destruct x as [|kv rows] eqn:Hrows
    end; [done|].
    intros [-> Hnd]%set_index_Ok. exists lanes.
    split; [done|]. split; [done|]. split; [symmetry; exact Hrows|].
    by split.
  - intros (lanes & Hl & Hc & -> & Hne & Hnd).
    by apply bcl2fastq_counts_json_complete.
Qed.

(** X4.  A structured report with a key missing is refused with a
    [KeyError] that names the key: "ConversionResults" when the report
    lacks it, and otherwise the key that the first incomplete lane
    block lacks, "DemuxResults" before "LaneNumber".  A report with no
    lane block at all is refused with a [ValueError]. *)
Theorem bcl2fastq_counts_json_missing_key w path :
  (ConversionResults (load_stats w path) = None ->
   _bcl2fastq_counts w path =
     Raise (KeyError "bcl stats file is missing ConversionResults attribute")) /\
  (ConversionResults (load_stats w path) = Some [] ->
   _bcl2fastq_counts w path = Raise (ValueError "No objects to concatenate")) /\
  (forall before lane after,
     ConversionResults (load_stats w path) = Some (before ++ lane :: after) ->
     Forall complete_lane before ->
     (DemuxResults lane = None ->
      _bcl2fastq_counts w path =
        Raise (KeyError "bcl stats file is missing DemuxResults attribute")) /\
     (DemuxResults lane <> None -> LaneNumber lane = None ->
      _bcl2fastq_counts w path =
        Raise (KeyError "bcl stats file is missing LaneNumber attribute"))).
Proof.
  unfold _bcl2fastq_counts. split; [by intros ->|]. split; [by intros ->|].
  intros before lane after -> Hbefore. simpl.
  rewrite for_each_app, (for_each_append _ conversion_rows).
  - simpl. split.
    + by intros ->.
    + intros Hr ->. by destruct (DemuxResults lane).
  - intros s l Hin. rewrite List.Forall_forall in Hbefore.
    destruct (Hbefore l Hin) as [[results Hr] [number Hn]].
    unfold conversion_rows. by rewrite Hr, Hn.
Qed.

Lemma str_inj z z' : str z = str z' -> z = z'.
Proof.
  unfold str. intros H.
  assert (Hnn : forall z, Z.to_int z <> Decimal.Pos Decimal.Nil /\
                          Z.to_int z <> Decimal.Neg Decimal.Nil).
  { intros [|p|p]; simpl; split; try done.
    - intros [= Hp]. by apply DecimalPos.Unsigned.to_uint_nonnil in Hp.
    - intros [= Hp]. by apply DecimalPos.Unsigned.to_uint_nonnil in Hp. }
  apply DecimalZ.to_int_inj.
  assert (Some (Z.to_int z) = Some (Z.to_int z')) as [= ->]; [|done].
  destruct (Hnn z) as [H1 H2], (Hnn z') as [H1' H2'].
  rewrite <- (NilZero.isi (Z.to_int z)), <- (NilZero.isi (Z.to_int z'))
    by done.
  by rewrite H.
Qed.

Lemma NoDup_lane_keys (lines : list demultiplex_stat) :
  NoDup (map (fun r => (SampleID r, str (csv_Lane r))) lines) <->
  NoDup (map (fun r => (SampleID r, csv_Lane r)) lines).
Proof.
  assert (Heq : map (fun r => (SampleID r, str (csv_Lane r))) lines =
                map (fun k : string * Z => (fst k, str (snd k)))
                  (map (fun r => (SampleID r, csv_Lane r)) lines))
    by (by rewrite map_map).
  rewrite Heq.
  assert (Hinj : Inj (=) (=) (fun k : string * Z => (fst k, str (snd k)))).
  { intros [s z] [s' z'] [= -> Hz]. f_equal. by apply str_inj. }
  apply (NoDup_fmap (fun k : string * Z => (fst k, str (snd k)))).
Qed.

Lemma duplicated_keys_In seen ks k :
  In k (duplicated_keys seen ks) <->
  exists j, ks !! j = Some k /\
            (k ∈ seen \/ exists i, i < j /\ ks !! i = Some k).
Proof.
  revert seen. induction ks as [|k0 ks IH]; intros seen; simpl.
  - split; [done|]. by intros (j & ? & _).
  - destruct (bool_decide_reflect (k0 ∈ seen)) as [Hin|Hnin]; simpl;
      rewrite IH; split.
    + intros [<-|(j & Hj & Hk)].
      * exists 0. split; [done|]. by left.
      * exists (S j). split; [done|]. destruct Hk as [?|(i & Hi & Hik)];
          [by left|]. right. exists (S i). split; [lia|done].
    + intros ([|j] & Hj & Hk); simpl in Hj.
      * left. congruence.
      * right. exists j. split; [done|].
        destruct Hk as [?|([|i] & Hi & Hik)]; [by left|simpl in Hik..].
        -- left. congruence.
        -- right. exists i. split; [lia|done].
    + intros (j & Hj & Hk). exists (S j). split; [done|].
      destruct Hk as [[->|?]%elem_of_cons|(i & Hi & Hik)].
      * right. exists 0. split; [lia|done].
      * by left.
      * right. exists (S i). split; [lia|done].
    + intros ([|j] & Hj & Hk); simpl in Hj.
      * injection Hj as ->. exfalso.
        destruct Hk as [?|(i & Hi & _)]; [done|lia].
      * exists j. split; [done|].
        destruct Hk as [?|([|i] & Hi & Hik)];
          [left; by right|simpl in Hik..].
        -- left. injection Hik as ->. by left.
        -- right. exists i. split; [lia|done].
Qed.

Lemma duplicated_keys_nil seen ks :
  duplicated_keys seen ks = [] -> NoDup ks.
Proof.
  revert seen. induction ks as [|k ks IH]; intros seen; simpl.
  - intros _. constructor.
  - destruct (bool_decide_reflect (k ∈ seen)) as [|Hk]; [done|].
    intros Hnil. constructor; [|by eapply IH].
    intros [j Hj]%list_elem_of_lookup.
    assert (In k (duplicated_keys (k :: seen) ks)) as Hd.
    { apply duplicated_keys_In. exists j. split; [done|]. left. by left. }
    by rewrite Hnil in Hd.
Qed.

Lemma unique_In seen ks k :
  In k (unique seen ks) <-> In k ks /\ k ∉ seen.
Proof.
  revert seen. induction ks as [|k0 ks IH]; intros seen; simpl.
  - by split; [|intros [? _]].
  - destruct (bool_decide_reflect (k0 ∈ seen)) as [Hin|Hnin]; simpl;
      rewrite IH; split.
    + intros [? ?]. split; [by right|done].
    + intros [[->|?] ?]; [done|by split].
    + intros [<-|[? Hk]]; [split; [by left|done]|].
      split; [by right|]. intros ?. apply Hk. by right.
    + intros [[->|?] Hk]; [by left|].
      destruct (decide (k0 = k)) as [->|Hne]; [by left|]. right.
      split; [done|]. by intros [->|?]%elem_of_cons.
Qed.

Lemma unique_NoDup seen ks : NoDup (unique seen ks).
Proof.
  revert seen. induction ks as [|k ks IH]; intros seen; simpl; [constructor|].
  destruct (bool_decide_reflect (k ∈ seen)); [done|].
  constructor; [|done]. intros [_ Hk]%list_elem_of_In%unique_In.
  apply Hk. by left.
Qed.

(** X5.  The parser of the tabular report leaves out every line of
    the "Undetermined" pseudo-sample and doubles the reads of every
    other line, in [int64], under the key of its sample and its lane
    written as a string: the double itself for reads between -2^62
    and 2^62, a wrapped value beyond.  It returns this table exactly
    when no two of the lines kept have the same sample and lane;
    otherwise it raises the [ValueError] of [set_index], whose message
    shows the keys that occur again, each once. *)
Theorem bclconvert_counts_lines w path :
  let kept :=
    filter (fun r => SampleID r ≠ "Undetermined") (read_csv w path) in
  let keys := map (fun r => (SampleID r, str (csv_Lane r))) kept in
  (NoDup (map (fun r => (SampleID r, csv_Lane r)) kept) ->
   _bclconvert_counts w path =
     Ok (map (fun r => ((SampleID r, str (csv_Lane r)),
                        wrap_int64 (Reads r * 2))) kept)) /\
  (~ NoDup (map (fun r => (SampleID r, csv_Lane r)) kept) ->
   exists duplicates,
     _bclconvert_counts w path =
       Raise (ValueError ("Index has duplicate keys: "
                          +:+ index_repr w duplicates)) /\
     duplicates <> [] /\ NoDup duplicates /\
     forall k,
       In k duplicates <->
       exists i j, i < j /\ keys !! i = Some k /\ keys !! j = Some k) /\
  (forall t,
     _bclconvert_counts w path = Ok t ->
     (forall k v,
        In (k, v) t <->
        exists line,
          In line (read_csv w path) /\ SampleID line <> "Undetermined" /\
          k = (SampleID line, str (csv_Lane line)) /\
          v = wrap_int64 (Reads line * 2)) /\
     (forall lane, table_lookup ("Undetermined", lane) t = None)) /\
  (forall reads,
     (- 2 ^ 62 <= reads < 2 ^ 62)%Z ->
     wrap_int64 (reads * 2) = (reads * 2)%Z) /\
  wrap_int64 (2 ^ 62 * 2) = (- 2 ^ 63)%Z.
Proof.
  intros kept keys. unfold _bclconvert_counts. fold kept. unfold set_index.
  rewrite map_map. cbn [fst]. fold keys.
  split; [|split; [|split; [|split]]].
  - intros Hnd. rewrite bool_decide_true; [done|].
    by apply NoDup_lane_keys.
  - intros Hnd. rewrite bool_decide_false by (by rewrite NoDup_lane_keys).
    exists (unique [] (duplicated_keys [] keys)). split; [done|].
    assert (Hdup : duplicated_keys [] keys <> []).
    { intros Hnil%duplicated_keys_nil. by apply Hnd, NoDup_lane_keys. }
    split; [|split].
    + by destruct (duplicated_keys [] keys) as [|k ks].
    + apply unique_NoDup.
    + intros k. rewrite unique_In, duplicated_keys_In. split.
      * intros [(j & Hj & [?%elem_of_nil|(i & Hi & Hik)]) _]; [done|].
        by exists i, j.
      * intros (i & j & Hij & Hi & Hj). split; [|by intros ?%elem_of_nil].
        exists j. split; [done|]. right. by exists i.
  - case_bool_decide as Hnd; [|done]. intros t [= <-]. split.
    + intros k v. rewrite in_map_iff. unfold kept. split.
      * intros (line & [= <- <-] & Hin).
        apply list_elem_of_In, list_elem_of_filter in Hin as [Hu Hin].
        exists line. by rewrite <- list_elem_of_In.
      * intros (line & Hin & Hu & -> & ->). exists line. split; [done|].
        apply list_elem_of_In, list_elem_of_filter.
        by rewrite list_elem_of_In.
    + intros lane. apply table_lookup_None. rewrite map_map. simpl.
      intros (line & [= Hs _] & Hin)%in_map_iff.
      by apply list_elem_of_In, list_elem_of_filter in Hin as [Hu _].
  - intros reads Hr. unfold wrap_int64.
    rewrite Z.mod_small; [lia|]. 
    change (2 ^ 64)%Z with (4 * 2 ^ 62)%Z. change (2 ^ 63)%Z with (2 * 2 ^ 62)%Z.
    lia.
  - by vm_compute.
Qed.

(** ** Unsupported metadata *)

(** X6.  With a mapping file (amplicon) in place of a sample sheet,
    each of the three stages that read the sheet raises the
    [ValueError] "counts not implemented for amplicon" before it looks
    at the disk, and [run_counts] returns no table: it raises the
    error of the demultiplex stage if that fails, and this
    [ValueError] otherwise. *)
Theorem counts_not_implemented_for_amplicon w run_dir :
  fastp_counts w run_dir MappingFile =
    ([], Raise (ValueError "counts not implemented for amplicon")) /\
  minimap2_counts w run_dir MappingFile =
    ([], Raise (ValueError "counts not implemented for amplicon")) /\
  direct_sequence_counts w run_dir MappingFile =
    Raise (ValueError "counts not implemented for amplicon") /\
  run_counts w run_dir MappingFile =
    ([], match bcl2fastq_counts w run_dir MappingFile with
         | Ok _ => Raise (ValueError "counts not implemented for amplicon")
         | Raise e => Raise e
         end).
Proof.
  split; [done|]. split; [done|]. split; [done|].
  unfold run_counts, quiet, wbind.
  by destruct (bcl2fastq_counts w run_dir MappingFile).
Qed.

(** ** Filename identity parser: names written by the demultiplexer *)

Lemma app_split s t s' t' :
  s +:+ t = s' +:+ t' -> String.length s <= String.length s' ->
  exists x, s' = s +:+ x /\ t = x +:+ t'.
Proof.
  revert s'. induction s as [|c s IH]; intros s' H Hlen; simpl in *.
  - by exists s'.
  - destruct s' as [|c' s']; simpl in *; [lia|].
    injection H as -> H. destruct (IH s' H) as (x & -> & ->); [lia|].
    by exists x.
Qed.

(** A run of a class is passed before a character outside the class
    is met. *)
Lemma skip_class p c a r x y :
  all_of p a = true -> p c = false ->
  a +:+ r = x +:+ String c y ->
  exists x', x = a +:+ x' /\ r = x' +:+ String c y.
Proof.
  revert x. induction a as [|e a IH]; intros x Ha Hc H; simpl in *.
  - by exists x.
  - apply andb_true_iff in Ha as [He Ha].
    destruct x as [|e' x]; simpl in *.
    + injection H as -> _. congruence.
    + injection H as -> H. destruct (IH x Ha Hc H) as (x' & -> & ->).
      by exists x'.
Qed.

Lemma class_without p c s x y :
  all_of p s = true -> p c = false -> s <> x +:+ String c y.
Proof.
  revert x. induction s as [|e s IH]; intros x Hs Hc H; simpl in *.
  - by destruct x.
  - apply andb_true_iff in Hs as [He Hs].
    destruct x as [|e' x]; simpl in *.
    + injection H as -> _. congruence.
    + injection H as -> H. by apply (IH x).
Qed.

Lemma one_of_RI d : one_of "RI" d = true -> d = "R"%char \/ d = "I"%char.
Proof.
  unfold one_of. simpl. rewrite orb_false_r.
  intros [H|H]%orb_true_iff; apply Ascii.eqb_eq in H; auto.
Qed.

Lemma one_of_12 n : one_of "12" n = true -> n = "1"%char \/ n = "2"%char.
Proof.
  unfold one_of. simpl. rewrite orb_false_r.
  intros [H|H]%orb_true_iff; apply Ascii.eqb_eq in H; auto.
Qed.

Ltac peel H x :=
  destruct x as [|? x]; simpl in H; [discriminate H|injection H as <- H].

(** In a name written by the demultiplexer the cell number starts at
    one place only. *)
Lemma cell_starts_once cell l3 d n suffix x z :
  all_of is_digit cell = true -> all_of is_digit l3 = true ->
  one_of "RI" d = true -> one_of "12" n = true ->
  all_of no_underscore suffix = true ->
  "_S" +:+ cell +:+ "_L" +:+ l3 +:+ "_"
    +:+ String d (String n ("_001" +:+ suffix)) =
  x +:+ "_S" +:+ z ->
  x = "".
Proof.
  intros Hc Hl Hd Hn Hs H.
  destruct x as [|c0 x]; [done|]. exfalso. simpl in H. injection H as <- H.
  peel H x.
  apply (skip_class is_digit "_") in H as (x' & -> & H); [|done|done].
  simpl in H. peel H x'. peel H x'.
  apply (skip_class is_digit "_") in H as (x & -> & H); [|done|done].
  simpl in H.
  apply one_of_RI in Hd as [-> | ->]; apply one_of_12 in Hn as [-> | ->];
    (peel H x; peel H x; peel H x; peel H x; peel H x; peel H x; peel H x;
     by apply (class_without no_underscore "_") in H).
Qed.

Lemma digit_not_sign c :
  is_digit c = true -> Ascii.eqb c "+" || Ascii.eqb c "-" = false.
Proof.
  intros Hc.
  destruct (Ascii.eqb_spec c "+") as [->|_]; [done|].
  by destruct (Ascii.eqb_spec c "-") as [->|_].
Qed.

(** A lane of the sheet, one to three digits without a leading zero,
    is padded to three digits, and the padding is what [lstrip]
    removes. *)
Lemma zfill_lane lane :
  all_of is_digit lane = true -> 1 <= String.length lane <= 3 ->
  startswith "0" lane = false ->
  all_of is_digit (zfill 3 lane) = true /\
  String.length (zfill 3 lane) = 3 /\
  lstrip "0" (zfill 3 lane) = lane.
Proof.
  intros Hd Hlen Hz. destruct lane as [|c r]; simpl in Hlen; [lia|].
  simpl in Hz. unfold zfill.
  pose proof Hd as Hd'. simpl in Hd'. apply andb_true_iff in Hd' as [Hc _].
  rewrite (digit_not_sign c Hc).
  destruct r as [|c2 [|c3 [|c4 r]]]; simpl in Hlen; try lia; simpl;
    rewrite ?Hz; simpl in Hd; by rewrite ?Hd.
Qed.

Lemma append_empty_r s : s +:+ "" = s.
Proof. induction s as [|c s IH]; simpl; [done|by rewrite IH]. Qed.

(** X7.  The name and the lane are recovered from a file name written
    by the demultiplexer: for a sample name (any text without a line
    break, underscores included), a cell number of one to four digits,
    a lane of the sheet (one to three digits, no leading zero) padded
    to three digits, a read or index id, the segment "_001" and an
    extension without underscore, the parser returns the sample name
    whole and the lane as the sheet writes it. *)
Theorem extract_name_and_lane_round_trip name cell lane d n suffix :
  all_of any_char name = true ->
  all_of is_digit cell = true -> 1 <= String.length cell <= 4 ->
  all_of is_digit lane = true -> 1 <= String.length lane <= 3 ->
  startswith "0" lane = false ->
  one_of "RI" d = true -> one_of "12" n = true ->
  all_of no_underscore suffix = true ->
  _extract_name_and_lane
    (name +:+ "_S" +:+ cell +:+ "_L" +:+ zfill 3 lane +:+ "_"
       +:+ String d (String n ("_001" +:+ suffix))) =
    Ok (name, lane).
Proof.
  intros Hn Hc Hcl Hl Hll Hz Hd Hnn Hs.
  destruct (zfill_lane lane Hl Hll Hz) as (Hl3 & Hlen3 & Hstrip).
  set (filename := name +:+ _).
  assert (Hconv : filename_convention filename name cell (zfill 3 lane) d n
                    ("_001" +:+ suffix)).
  { unfold filename_convention. repeat split; try done; lia. }
  pose proof (SAMPLE_PATTERN_matches _ _ _ _ _ _ _ Hconv) as Hm.
  unfold _extract_name_and_lane.
  destruct (re_match SAMPLE_PATTERN filename)
    as [[[[name' g2] g3] g4]|] eqn:Hre; [|done].
  apply SAMPLE_PATTERN_first in Hre
    as (cell' & lane' & d' & n' & rest' & -> & -> & -> & Hconv' & Hmax).
  specialize (Hmax _ _ _ _ _ _ Hconv).
  destruct Hconv' as (Hf & _ & Hc' & _ & Hl' & _ & _ & _).
  unfold filename in Hf. apply app_split in Hf as (x & -> & Ht); [|lia].
  pose proof Ht as Hx. apply cell_starts_once in Hx; try done. subst x.
  simpl in Ht. injection Ht as Ht.
  assert (cell = cell') as <-
    by (eapply (run_unique is_digit); [exact Hc|exact Hc'| | |exact Ht]; done).
  apply app_inv_length in Ht as [_ Ht]; [|done].
  simpl in Ht. injection Ht as Ht.
  assert (zfill 3 lane = lane') as <-
    by (eapply (run_unique is_digit); [exact Hl3|exact Hl'| | |exact Ht]; done).
  simpl. by rewrite append_empty_r, Hstrip.
Qed.

Lemma extract_name_and_lane_round_trip_witness :
  _extract_name_and_lane "sample_1_S12_L003_R1_001.fastq.gz" =
    Ok ("sample_1", "3").
Proof.
  apply (extract_name_and_lane_round_trip "sample_1" "12" "3" "R" "1"
           ".fastq.gz"); try (vm_compute; reflexivity); simpl; lia.
Defined.

(** ** Log locator: the rows, the errors and the warning *)

Lemma for_each_Ok_each {A S} (body : S -> A -> result S) xs acc r :
  for_each body xs acc = Ok r ->
  forall x, In x xs -> exists s s', body s x = Ok s'.
Proof.
  revert acc. induction xs as [|x xs IH]; intros acc; simpl; [done|].
  destruct (body acc x) as [acc'|e] eqn:Hb; simpl; [|done].
  intros H y [<-|Hy]; [by exists acc, acc'|]. by eapply IH.
Qed.

Lemma extract_name_and_lane_Raise filename e :
  _extract_name_and_lane filename = Raise e ->
  re_match SAMPLE_PATTERN filename = None /\
  e = ValueError ("Unrecognized filename pattern " +:+ filename).
Proof.
  unfold _extract_name_and_lane.
  destruct (re_match SAMPLE_PATTERN filename) as [[[[? ?] ?] ?]|]; [done|].
  by intros [= <-].
Qed.

Lemma located_logs_Raise w run_dir samples subdir suffix e :
  located_logs w run_dir samples subdir suffix = Raise e ->
  exists pl log,
    pl ∈ projects_of samples /\
    In log (logs_of w run_dir subdir suffix pl) /\
    re_match SAMPLE_PATTERN (basename log) = None /\
    e = ValueError ("Unrecognized filename pattern " +:+ basename log).
Proof.
  unfold located_logs.
  intros (before & pl & after & acc & Hpl & _ & Hbody)%for_each_Raise.
  unfold locate_logs in Hbody.
  apply for_each_Raise in Hbody
    as (before' & log & after' & acc' & Hlog & _ & Hbody).
  destruct (_extract_name_and_lane (basename log)) as [nl|e'] eqn:Hx; [done|].
  simpl in Hbody. injection Hbody as ->.
  apply extract_name_and_lane_Raise in Hx as [Hre ->].
  exists pl, log. split.
  { apply elem_of_elements, list_elem_of_In. rewrite Hpl.
    apply in_or_app. right. by left. }
  split; [|done]. unfold logs_of. rewrite Hlog.
  apply in_or_app. right. by left.
Qed.

Lemma located_logs_Ok w run_dir samples subdir suffix out :
  located_logs w run_dir samples subdir suffix = Ok out ->
  (forall pl log,
     pl ∈ projects_of samples ->
     In log (logs_of w run_dir subdir suffix pl) ->
     re_match SAMPLE_PATTERN (basename log) <> None) /\
  Forall (located w run_dir subdir suffix samples) out.
Proof.
  unfold located_logs. intros H. split.
  - intros pl log Hpl Hlog.
    destruct (for_each_Ok_each _ _ _ _ H pl) as (s & s' & Hbody).
    { by apply list_elem_of_In, elem_of_elements. }
    unfold locate_logs in Hbody.
    destruct (for_each_Ok_each _ _ _ _ Hbody log Hlog) as (s1 & s1' & Hb).
    unfold _extract_name_and_lane in Hb. intros Hre. by rewrite Hre in Hb.
  - revert H. apply for_each_invariant; [constructor|].
    intros s pl s' Hpl Hs. unfold locate_logs.
    apply for_each_invariant; [done|].
    intros s1 log s1' Hlog Hs1.
    destruct (_extract_name_and_lane (basename log)) as [[id lane]|] eqn:Hx;
      [|done].
    simpl. intros [= <-]. apply Forall_app. split; [done|].
    constructor; [|constructor]. exists pl. simpl.
    split; [by apply elem_of_elements, list_elem_of_In|done].
Qed.

(** X8.  A log whose file name the pattern does not recognize stops the
    locator: when the logs found for a project and lane of the sheet
    include such a file, no table is returned and nothing is warned,
    whatever the other logs hold; the [ValueError] raised names a file
    of that kind (the first one met). *)
Theorem parsefier_unrecognized_filename w run_dir samples subdir suffix name
    funk pl log :
  pl ∈ projects_of samples ->
  In log (logs_of w run_dir subdir suffix pl) ->
  re_match SAMPLE_PATTERN (basename log) = None ->
  exists pl' log',
    pl' ∈ projects_of samples /\
    In log' (logs_of w run_dir subdir suffix pl') /\
    re_match SAMPLE_PATTERN (basename log') = None /\
    _parsefier w run_dir (KLSampleSheet samples) subdir suffix name funk =
      ([], Raise (ValueError
                    ("Unrecognized filename pattern " +:+ basename log'))).
Proof.
  intros Hpl Hlog Hre. rewrite parsefier_sheet.
  destruct (located_logs w run_dir samples subdir suffix) as [out|e] eqn:Hout.
  - apply located_logs_Ok in Hout as [Hall _]. by destruct (Hall pl log).
  - apply located_logs_Raise in Hout as (pl' & log' & ? & ? & ? & ->).
    by exists pl', log'.
Qed.

Lemma parsefier_unrecognized_filename_witness :
  exists pl' log',
    pl' ∈ projects_of samples_S1 /\
    In log' (logs_of run_unnumbered_report "run" "json" ".json" pl') /\
    re_match SAMPLE_PATTERN (basename log') = None /\
    _parsefier run_unnumbered_report "run" (KLSampleSheet samples_S1)
      "json" ".json" "total_biological_reads_r1r2"
      (_parse_fastp_counts run_unnumbered_report) =
      ([], Raise (ValueError
                    ("Unrecognized filename pattern " +:+ basename log'))).
Proof.
  apply (parsefier_unrecognized_filename run_unnumbered_report "run"
           samples_S1 "json" ".json" "total_biological_reads_r1r2"
           (_parse_fastp_counts run_unnumbered_report)
           ("P", "1") "run/P/json/S1_L001_R1_001.json").
  - apply elem_of_list_to_set. simpl. by left.
  - vm_compute. by left.
  - vm_compute. reflexivity.
Defined.

Lemma map_result_Ok {A B} (f : A -> result B) xs ys :
  map_result f xs = Ok ys <-> Forall2 (fun x y => f x = Ok y) xs ys.
Proof.
  revert ys. induction xs as [|x xs IH]; intros ys; simpl.
  - split; [intros [= <-]; constructor|by intros ->%Forall2_nil_inv_l].
  - destruct (f x) as [y|e] eqn:Hx; simpl.
    + destruct (map_result f xs) as [ys'|e] eqn:Hxs; simpl.
      * split.
        -- intros [= <-]. constructor; [done|]. by apply IH.
        -- intros (y' & ys'' & Hy & Hys & ->)%Forall2_cons_inv_l.
           apply IH in Hys. congruence.
      * split; [done|].
        intros (y' & ys'' & Hy & Hys & ->)%Forall2_cons_inv_l.
        by apply IH in Hys.
    + split; [done|].
      intros (y' & ys'' & Hy & Hys & ->)%Forall2_cons_inv_l. congruence.
Qed.

Lemma map_result_Raise {A B} (f : A -> result B) before x after e :
  (forall x', In x' before -> exists y, f x' = Ok y) ->
  f x = Raise e ->
  map_result f (before ++ x :: after) = Raise e.
Proof.
  intros Hb Hx. induction before as [|x' before IH]; simpl.
  - by rewrite Hx.
  - destruct (Hb x') as [y ->]; [by left|]. simpl.
    rewrite IH; [done|]. intros ? ?. apply Hb. by right.
Qed.

Lemma parsed_rows w funk rows t :
  parsed w funk rows = Ok t ->
  NoDup (map fst t) /\
  forall k v,
    In (k, v) t ->
    exists r n,
      In r rows /\ k = log_key r /\ funk (Log.path r) = Ok n /\
      v = astype_float64 n.
Proof.
  unfold parsed.
  destruct (map_result _ rows) as [counts|e] eqn:Hc; [|done]. simpl.
  intros [-> Hnd]%set_index_Ok. split; [done|].
  apply map_result_Ok in Hc. clear Hnd.
  induction Hc as [|r kv rows counts Hr _ IH]; [done|].
  intros k v [->|Hin].
  - destruct (funk (Log.path r)) as [n|] eqn:Hn; [|done].
    injection Hr as <- <-. exists r, n. split; [by left|done].
  - destruct (IH k v Hin) as (r' & n & ? & ? & ? & ?).
    exists r', n. split; [by right|done].
Qed.

(** X9.  Every row of a table that the locator returns stands for one
    log: its sample is a sample of the sheet, its name and lane are
    those read from the file name of a log found for a project and lane
    of the sheet, and its value is what the parser returned for that
    log, as a [float64].  No two rows have the same sample and lane,
    and at most one warning comes with the table. *)
Theorem parsefier_rows w run_dir samples subdir suffix name funk ws t :
  _parsefier w run_dir (KLSampleSheet samples) subdir suffix name funk =
    (ws, Ok t) ->
  NoDup (map fst t) /\
  length ws <= 1 /\
  forall id lane v,
    In ((id, lane), v) t ->
    (exists smp, In smp samples /\ Sample_ID smp = id) /\
    exists pl log n,
      pl ∈ projects_of samples /\
      In log (logs_of w run_dir subdir suffix pl) /\
      _extract_name_and_lane (basename log) = Ok (id, lane) /\
      funk log = Ok n /\ v = astype_float64 n.
Proof.
  rewrite parsefier_sheet.
  destruct (located_logs w run_dir samples subdir suffix) as [out|e] eqn:Hout;
    [|done].
  destruct (duplicated [] (retained samples out)); [|done].
  intros [= <- Ht]. apply parsed_rows in Ht as [Hnd Hrows].
  split; [done|]. split; [by case_bool_decide; simpl; lia|].
  intros id lane v (r & n & Hin & [= -> ->] & Hn & ->)%Hrows. split.
  - apply expected_of_spec. unfold retained in Hin.
    by apply list_elem_of_In, list_elem_of_filter in Hin as [? _].
  - apply retained_In in Hin. apply located_logs_Ok in Hout as [_ Hloc].
    rewrite List.Forall_forall in Hloc.
    destruct (Hloc r Hin) as (pl & ? & ? & ? & _).
    by exists pl, (Log.path r), n.
Qed.

Lemma parsefier_rows_witness :
  NoDup (map fst [(("S1", "1"), Fin 90)]) /\
  length ["No total_biological_reads_r1r2 log found for these samples: S2"]
    <= 1 /\
  forall id lane v,
    In ((id, lane), v) [(("S1", "1"), Fin 90)] ->
    (exists smp, In smp samples_S1_S2 /\ Sample_ID smp = id) /\
    exists pl log n,
      pl ∈ projects_of samples_S1_S2 /\
      In log (logs_of run_missing_S2 "run" "json" ".json" pl) /\
      _extract_name_and_lane (basename log) = Ok (id, lane) /\
      _parse_fastp_counts run_missing_S2 log = Ok n /\
      v = astype_float64 n.
Proof.
  apply (parsefier_rows run_missing_S2 "run" samples_S1_S2 "json" ".json"
           "total_biological_reads_r1r2"
           (_parse_fastp_counts run_missing_S2)).
  vm_compute. reflexivity.
Defined.

(** X10.  A log that does not parse stops the locator with the error
    of its parser: with the logs located and no pair matched twice, the
    error raised is that of the first log kept whose parser fails, no
    table is returned, and the warning about the samples without a log
    was emitted before. *)
Theorem parsefier_malformed_log w run_dir samples subdir suffix name funk out
    before r after e :
  located_logs w run_dir samples subdir suffix = Ok out ->
  duplicated [] (retained samples out) = [] ->
  retained samples out = before ++ r :: after ->
  (forall r', In r' before -> exists n, funk (Log.path r') = Ok n) ->
  funk (Log.path r) = Raise e ->
  _parsefier w run_dir (KLSampleSheet samples) subdir suffix name funk =
    (if bool_decide (found_of out ⊂ expected_of samples)
     then [no_log_found name (expected_of samples ∖ found_of out)]
     else [],
     Raise e).
Proof.
  intros Hout Hdup Hret Hbefore Hr.
  rewrite parsefier_sheet, Hout, Hdup. f_equal.
  unfold parsed. rewrite Hret.
  rewrite (map_result_Raise _ before r after e); [done| |by rewrite Hr].
  intros r' Hr'. destruct (Hbefore r' Hr') as [n ->]. by eexists.
Qed.

Lemma parsefier_malformed_log_witness :
  minimap2_counts run_empty_samtools_log "run" (KLSampleSheet samples_S1_S2) =
    (["No non_host_reads log found for these samples: S2"],
     Raise (ValueError
              "The samtools log for run/P/samtools/S1_S1_L001_R1_001.log is malformed")).
Proof.
  pose proof (parsefier_malformed_log run_empty_samtools_log "run"
                samples_S1_S2 "samtools" ".log" "non_host_reads"
                (_parse_samtools_counts run_empty_samtools_log)
                [ {| Log.Sample_ID := "S1"; Log.Lane := "1";
                     Log.Sample_Project := "P";
                     Log.path := "run/P/samtools/S1_S1_L001_R1_001.log" |} ]
                []
                {| Log.Sample_ID := "S1"; Log.Lane := "1";
                   Log.Sample_Project := "P";
                   Log.path := "run/P/samtools/S1_S1_L001_R1_001.log" |}
                []
                (ValueError
                   "The samtools log for run/P/samtools/S1_S1_L001_R1_001.log is malformed"))
    as H.
  unfold minimap2_counts. rewrite H; try (vm_compute; reflexivity).
  intros r' [].
Defined.

Lemma strict_subset_missing (found expected : gset string) :
  found ⊂ expected <->
  (forall s, s ∈ found -> s ∈ expected) /\
  exists s, s ∈ expected /\ s ∉ found.
Proof.
  split.
  - intros [Hsub Hne]. split; [done|].
    destruct (decide (expected ∖ found = ∅)) as [He|He].
    + exfalso. apply Hne. intros s Hs.
      destruct (decide (s ∈ found)) as [|Hn]; [done|].
      assert (s ∈ expected ∖ found) as Hd by (by apply elem_of_difference).
      rewrite He in Hd. by apply elem_of_empty in Hd.
    + apply set_choose_L in He as [s [? ?]%elem_of_difference]. by exists s.
  - intros [Hsub (s & Hs & Hn)]. split; [done|].
    intros Hsup. apply Hn. by apply Hsup.
Qed.

(** X11.  The locator warns in one situation only: the logs are all
    recognized, no pair is matched twice, every log found is of a
    sample of the sheet, and some sample of the sheet has no log in any
    lane.  In every other run nothing is warned, whether a table is
    returned or an error raised. *)
Theorem parsefier_warns_exactly w run_dir samples subdir suffix name funk :
  fst (_parsefier w run_dir (KLSampleSheet samples) subdir suffix name funk)
    <> [] <->
  exists out,
    located_logs w run_dir samples subdir suffix = Ok out /\
    duplicated [] (retained samples out) = [] /\
    (forall r, In r out ->
       exists smp, In smp samples /\ Sample_ID smp = Log.Sample_ID r) /\
    (exists smp, In smp samples /\
       forall r, In r out -> Log.Sample_ID r <> Sample_ID smp).
Proof.
  rewrite parsefier_sheet.
  destruct (located_logs w run_dir samples subdir suffix) as [out|e] eqn:Hout.
  - destruct (duplicated [] (retained samples out)) as [|d dups] eqn:Hdup.
    + simpl. case_bool_decide as Hsub; simpl.
      * split; [intros _|done]. exists out.
        apply strict_subset_missing in Hsub as [Hall (s & Hs & Hn)].
        split; [done|]. split; [done|]. split.
        -- intros r Hr. apply expected_of_spec, Hall, found_of_spec. eauto.
        -- apply expected_of_spec in Hs as (smp & Hsmp & <-).
           exists smp. split; [done|]. intros r Hr Heq. apply Hn.
           apply found_of_spec. eauto.
      * split; [done|]. intros (out' & [= <-] & _ & Hall & smp & Hsmp & Hn).
        exfalso. apply Hsub, strict_subset_missing. split.
        -- intros s (r & Hr & <-)%found_of_spec. apply expected_of_spec.
           by apply Hall.
        -- exists (Sample_ID smp). split; [apply expected_of_spec; eauto|].
           intros (r & Hr & Heq)%found_of_spec. by apply (Hn r).
    + simpl. split; [done|]. intros (out' & [= <-] & Hd & _). congruence.
  - simpl. split; [done|]. by intros (out' & ? & _).
Qed.

(** ** Direct counts: the rows *)

Lemma count_pair_Ok w lane rows r1r2 rows' :
  count_pair w lane rows r1r2 = Ok rows' ->
  exists id c1 c2,
    re_match reg (basename (fst r1r2)) = Some id /\
    re_match reg (basename (snd r1r2)) = Some id /\
    count_sequences_in_fastq w (fst r1r2) = Ok c1 /\
    count_sequences_in_fastq w (snd r1r2) = Ok c2 /\
    rows' = rows ++ [((id, lane), float_of_int (c1 + c2))].
Proof.
  unfold count_pair.
  destruct (re_match reg (basename r1r2.1)) as [m_r1|]; [|done].
  destruct (re_match reg (basename r1r2.2)) as [m_r2|]; [|done].
  case_bool_decide as Hne; [done|].
  assert (m_r1 = m_r2) as <- by (by destruct (decide (m_r1 = m_r2))).
  destruct (count_sequences_in_fastq w r1r2.1) as [c1|] eqn:H1; [|done].
  destruct (count_sequences_in_fastq w r1r2.2) as [c2|] eqn:H2; [|done].
  simpl. intros [= <-]. by exists m_r1, c1, c2.
Qed.

(** X12.  Every row of the table of direct counts stands for one pair
    of files: two consecutive files of the sorted listing of
    [filtered_sequences] for a project and lane of the sheet, whose
    names carry the same sample.  The sample of the row is that one,
    whether the sheet has it or not; the lane is the lane as the sheet
    writes it, not the one of the file name; the value is the number of
    records of the two files together.  No two rows have the same
    sample and lane. *)
Theorem direct_sequence_counts_rows w run_dir samples t :
  direct_sequence_counts w run_dir (KLSampleSheet samples) = Ok t ->
  NoDup (map fst t) /\ Forall (direct_row w run_dir samples) t.
Proof.
  unfold direct_sequence_counts.
  destruct (for_each _ _ _) as [rows|e] eqn:Hrows; [|done]. simpl.
  intros [-> Hnd]%set_index_Ok. split; [done|]. clear Hnd.
  revert Hrows. apply for_each_invariant; [constructor|].
  intros s pl s' Hpl Hs. unfold count_project.
  rewrite sequences_subdir_filtered. simpl.
  fold (fastq_pairs w run_dir pl).
  apply for_each_invariant; [done|].
  intros s1 [r1 r2] s1' Hin Hs1
    (id & c1 & c2 & Hm1 & Hm2 & Hc1 & Hc2 & ->)%count_pair_Ok.
  apply Forall_app. split; [done|]. constructor; [|constructor].
  exists pl, r1, r2, c1, c2. simpl in *.
  split; [by apply elem_of_elements, list_elem_of_In|].
  repeat split; try done; by eapply count_sequences_nonneg.
Qed.

Lemma direct_sequence_counts_rows_witness :
  NoDup (map fst [(("S1", "1"), Fin 80)]) /\
  Forall (direct_row (run_of_S1 100) "run" samples_S1) [(("S1", "1"), Fin 80)].
Proof.
  apply (direct_sequence_counts_rows (run_of_S1 100) "run" samples_S1).
  vm_compute. reflexivity.
Defined.

(** In the name of a trimmed file written after the demultiplexer, the
    cell number starts at one place only. *)
Lemma trimmed_cell_starts_once cell lane3 d seg x z :
  all_of is_digit cell = true -> all_of is_digit lane3 = true ->
  is_digit d = true -> all_of is_digit seg = true ->
  "_S" +:+ cell +:+ "_L" +:+ lane3 +:+ "_R"
    +:+ String d ("_" +:+ seg +:+ ".trimmed.fastq.gz") =
  x +:+ "_S" +:+ z ->
  x = "".
Proof.
  intros Hc Hl Hd Hs H.
  destruct x as [|c0 x]; [done|]. exfalso. simpl in H. injection H as <- H.
  peel H x.
  apply (skip_class is_digit "_") in H as (x' & -> & H); [|done|done].
  simpl in H. peel H x'. peel H x'.
  apply (skip_class is_digit "_") in H as (x & -> & H); [|done|done].
  simpl in H. peel H x. peel H x.
  apply (skip_class is_digit "_" (String d "")) in H as (x' & -> & H);
    [|by simpl; rewrite Hd|done].
  simpl in H. destruct x' as [|? x']; simpl in H.
  { injection H as H. destruct seg as [|s0 seg]; simpl in H; [done|].
    injection H as -> _. done. }
  injection H as <- H.
  apply (skip_class is_digit "_") in H as (x & -> & H); [|done|done].
  by apply (class_without no_underscore "_") in H.
Qed.

(** X13.  The direct counter reads the sample whole from the name of a
    trimmed file written after the demultiplexer: for a sample name
    (any text without a line break, underscores included), a cell
    number, a lane of three digits, a read digit and a segment of three
    digits, the group of the pattern is the sample name. *)
Theorem reg_round_trip name cell lane3 d seg :
  all_of any_char name = true ->
  all_of is_digit cell = true -> cell <> "" ->
  all_of is_digit lane3 = true -> String.length lane3 = 3 ->
  is_digit d = true ->
  all_of is_digit seg = true -> String.length seg = 3 ->
  re_match reg
    (name +:+ "_S" +:+ cell +:+ "_L" +:+ lane3 +:+ "_R"
       +:+ String d ("_" +:+ seg +:+ ".trimmed.fastq.gz")) =
    Some name.
Proof.
  intros Hn Hc Hcne Hl Hll Hd Hs Hsl.
  assert (Hin : In (name, "")
                  (reg (name +:+ "_S" +:+ cell +:+ "_L" +:+ lane3 +:+ "_R"
                          +:+ String d ("_" +:+ seg +:+ ".trimmed.fastq.gz")))).
  { unfold reg.
    m_step; [apply m_star_In; split; [reflexivity|exact Hn]|].
    m_lit_step.
    m_step; [apply m_plus_In; split; [reflexivity|by split]|].
    m_lit_step.
    m_step; [apply m_rep_In; split; [reflexivity|split; [done|lia]]|].
    m_lit_step.
    m_step; [by apply m_class_In|].
    m_lit_step.
    m_step; [apply m_rep_In; split; [reflexivity|split; [done|lia]]|].
    m_step; [by apply m_class_In|].
    m_lit_step.
    m_step; [by apply m_class_In|].
    m_lit_step.
    m_step; [by apply m_class_In|].
    m_lit_step.
    cbv beta; apply m_bind_In; exists tt, ""; split;
      [apply m_eos_In; split; [reflexivity|by left]|].
    by apply m_ret_In. }
  destruct (re_match reg _) as [b|] eqn:Hre;
    [|apply re_match_None in Hre; by rewrite Hre in Hin].
  unfold reg in Hre, Hin.
  apply m_star_first in Hre as (m & rest & Heq & Hm & Hk & Hmax).
  apply m_bind_In in Hin as (a & r' & [Ha Ha']%m_star_In & Hin).
  pose proof (Hmax a r' Ha Ha' (In_not_nil _ _ Hin)) as Hlen.
  apply re_match_Some in Hk as [r Hk].
  m_inv. simplify_eq.
  apply app_split in Heq as (y & -> & Ht); [|done].
  apply trimmed_cell_starts_once in Ht; try done. subst y.
  by rewrite append_empty_r.
Qed.

Lemma reg_round_trip_witness :
  re_match reg "sample_1_S12_L003_R2_001.trimmed.fastq.gz" = Some "sample_1".
Proof.
  apply (reg_round_trip "sample_1" "12" "003" "2" "001");
    try (vm_compute; reflexivity); done.
Defined.

(** ** Run aggregator: errors, warnings and missing values *)

Lemma bcl2fastq_counts_NoDup w run_dir md t :
  bcl2fastq_counts w run_dir md = Ok t -> NoDup (map fst t).
Proof.
  unfold bcl2fastq_counts.
  destruct (path_exists w _), (path_exists w _); try done.
  - by intros [? _]%bcl2fastq_counts_json_lane.
  - by intros [-> ?]%bclconvert_counts_Ok.
Qed.

(** X14.  The four stages run in the order demultiplex, trimming, host
    filter, direct counts, and the first that fails decides the
    outcome: its exception is the one of [run_counts], whatever the
    stages after it would give, and the warnings of the stages before
    it are kept.  A table is returned exactly when the four stages
    return, with the warnings of the trimming stage and then those of
    the host-filter stage. *)
Theorem run_counts_stages w run_dir md :
  (forall e,
     bcl2fastq_counts w run_dir md = Raise e ->
     run_counts w run_dir md = ([], Raise e)) /\
  (forall demux,
     bcl2fastq_counts w run_dir md = Ok demux ->
     (forall ws1 e,
        fastp_counts w run_dir md = (ws1, Raise e) ->
        run_counts w run_dir md = (ws1, Raise e)) /\
     (forall ws1 fastp,
        fastp_counts w run_dir md = (ws1, Ok fastp) ->
        (forall ws2 e,
           minimap2_counts w run_dir md = (ws2, Raise e) ->
           run_counts w run_dir md = (ws1 ++ ws2, Raise e)) /\
        (forall ws2 minimap2,
           minimap2_counts w run_dir md = (ws2, Ok minimap2) ->
           (forall e,
              direct_sequence_counts w run_dir md = Raise e ->
              run_counts w run_dir md = (ws1 ++ ws2, Raise e)) /\
           (forall direct,
              direct_sequence_counts w run_dir md = Ok direct ->
              run_counts w run_dir md =
                (ws1 ++ ws2,
                 Ok (aggregate demux fastp minimap2 direct)))))).
Proof.
  unfold run_counts, quiet, wbind. split; [by intros e ->|].
  intros demux ->. split; [by intros ws1 e ->|].
  intros ws1 fastp ->. split.
  { intros ws2 e ->. done. }
  intros ws2 minimap2 ->. split.
  - intros e ->. simpl. by rewrite app_nil_r.
  - intros direct ->. simpl. by rewrite !app_nil_r.
Qed.

Lemma parse_samtools_counts_Ok w path n :
  _parse_samtools_counts w path = Ok n ->
  exists reads : Z,
    (0 <= reads)%Z /\ n = PyFloat (Fin (Qred (inject_Z reads / 2))).
Proof.
  unfold _parse_samtools_counts.
  destruct (re_match SAMTOOLS_PATTERN (read w path)) as [digits|] eqn:Hre;
    [|done].
  apply SAMTOOLS_PATTERN_first in Hre
    as (bracket & rest & (_ & _ & Hd & Hne) & _).
  rewrite (int_digits digits Hd Hne).
  destruct (int_max_str_digits <? _)%nat; [done|]. cbn [rbind].
  unfold int_to_float. destruct (2 ^ 1024 <=? _)%Z; [done|]. cbn [rbind].
  intros [= <-]. exists (round_half_even (int_of_digits 0 digits)).
  split; [|done].
  by apply round_half_even_nonneg, int_of_digits_nonneg.
Qed.

Lemma parse_fastp_counts_Ok w path n :
  _parse_fastp_counts w path = Ok n -> exists z, n = PyInt z.
Proof.
  unfold _parse_fastp_counts. intros H.
  repeat match type of H with
         | rbind ?r _ = Ok _ =>
             destruct r; cbn [rbind] in H; [|discriminate H]
         | (if ?b then _ else _) = Ok _ => destruct b; [discriminate H|]
         end.
  injection H as <-. by eexists.
Qed.

Lemma parsefier_values w run_dir md subdir suffix name funk t :
  snd (_parsefier w run_dir md subdir suffix name funk) = Ok t ->
  forall k x, In (k, x) t ->
    exists path n, funk path = Ok n /\ x = astype_float64 n.
Proof.
  destruct md as [samples|]; [|done]. rewrite parsefier_sheet.
  destruct (located_logs w run_dir samples subdir suffix) as [out|e]; [|done].
  destruct (duplicated [] (retained samples out)); [|done]. simpl.
  intros [_ Hrows]%parsed_rows k x (r & n & _ & _ & Hn & ->)%Hrows.
  by exists (Log.path r), n.
Qed.

Lemma fillna_NA x : fillna x = NA <-> x = NaN.
Proof. unfold fillna. by destruct x. Qed.

Lemma joined_NA (t : table float64) k :
  (forall x, In (k, x) t -> x <> NaN) ->
  fillna (joined t k) = NA <-> table_lookup k t = None.
Proof.
  intros Hval. rewrite fillna_NA. unfold joined.
  destruct (table_lookup k t) as [x|] eqn:Hk; [|done].
  apply table_lookup_Some in Hk. split; [|done]. by intros ?%(Hval x).
Qed.

(** X15.  In a table that [run_counts] returns, "NA" in a count column
    marks exactly a missing row of the stage: the raw reads are never
    "NA", and the reads after trimming, the reads after host filtering
    and the direct count of a row are "NA" exactly when the table of
    that stage has no row for its sample and lane.  The rows are those
    of the demultiplex table, each sample and lane once. *)
Theorem run_counts_NA_marks_missing w run_dir md ws rows :
  run_counts w run_dir md = (ws, Ok rows) ->
  exists demux fastp minimap2 direct,
    bcl2fastq_counts w run_dir md = Ok demux /\
    snd (fastp_counts w run_dir md) = Ok fastp /\
    snd (minimap2_counts w run_dir md) = Ok minimap2 /\
    direct_sequence_counts w run_dir md = Ok direct /\
    map index rows = map fst demux /\
    NoDup (map index rows) /\
    forall row, In row rows ->
      raw_reads_r1r2 row <> NA /\
      (total_biological_reads_r1r2 row = NA <->
       table_lookup (index row) fastp = None) /\
      (non_host_reads row = NA <->
       table_lookup (index row) minimap2 = None) /\
      (quality_filtered_reads_r1r2 row = NA <->
       table_lookup (index row) direct = None).
Proof.
  intros (demux & fastp & minimap2 & direct & Hdemux & Hfastp & Hmm & Hdirect
          & ->)%run_counts_Ok.
  exists demux, fastp, minimap2, direct.
  do 4 (split; [done|]).
  assert (Hidx : map index (aggregate demux fastp minimap2 direct) =
                 map fst demux) by (unfold aggregate; by rewrite map_map).
  split; [done|]. split.
  { rewrite Hidx. by eapply bcl2fastq_counts_NoDup. }
  intros row ([k raw] & <- & Hin)%in_map_iff. simpl.
  split; [done|]. split; [|split]; apply joined_NA; intros x Hx.
  - destruct (parsefier_values _ _ _ _ _ _ _ _ Hfastp k x Hx)
      as (path & n & Hn & ->).
    by apply parse_fastp_counts_Ok in Hn as [z ->].
  - destruct (parsefier_values _ _ _ _ _ _ _ _ Hmm k x Hx)
      as (path & n & Hn & ->).
    by apply parse_samtools_counts_Ok in Hn as (reads & _ & ->).
  - apply direct_sequence_counts_counted in Hdirect.
    rewrite List.Forall_forall in Hdirect.
    destruct (Hdirect _ Hx) as (c & _ & Hc). simpl in Hc. by subst x.
Qed.

Lemma run_counts_NA_marks_missing_witness :
  exists demux fastp minimap2 direct,
    bcl2fastq_counts (run_of_S1 100) "run" sheet_S1 = Ok demux /\
    snd (fastp_counts (run_of_S1 100) "run" sheet_S1) = Ok fastp /\
    snd (minimap2_counts (run_of_S1 100) "run" sheet_S1) = Ok minimap2 /\
    direct_sequence_counts (run_of_S1 100) "run" sheet_S1 = Ok direct /\
    map index
      [{| index := ("S1", "1");
          raw_reads_r1r2 := Num (Fin 200);
          total_biological_reads_r1r2 := Num (Fin 90);
          non_host_reads := Num (Fin 20);
          quality_filtered_reads_r1r2 := Num (Fin 80);
          fraction_passing_quality_filter := Num (Fin (2 # 5));
          fraction_non_human := Num (Fin (1 # 4)) |}] = map fst demux.
Proof.
  destruct (run_counts_NA_marks_missing (run_of_S1 100) "run" sheet_S1 []
              [{| index := ("S1", "1");
                  raw_reads_r1r2 := Num (Fin 200);
                  total_biological_reads_r1r2 := Num (Fin 90);
                  non_host_reads := Num (Fin 20);
                  quality_filtered_reads_r1r2 := Num (Fin 80);
                  fraction_passing_quality_filter := Num (Fin (2 # 5));
                  fraction_non_human := Num (Fin (1 # 4)) |}])
    as (demux & fastp & minimap2 & direct & H1 & H2 & H3 & H4 & H5 & _);
    [vm_compute; reflexivity|].
  by exists demux, fastp, minimap2, direct.
Defined.

Lemma half_is_zero reads :
  Qeq_bool (Qred (inject_Z reads / 2)) 0 = (reads =? 0)%Z.
Proof.
  destruct (Z.eqb_spec reads 0) as [->|Hne]; [done|].
  destruct (Qeq_bool _ 0) eqn:Heq; [|done].
  apply Qeq_bool_iff in Heq. rewrite Qred_correct in Heq.
  unfold Qeq, Qdiv, Qmult, Qinv, inject_Z in Heq. simpl in Heq. lia.
Qed.

Lemma half_not_negative reads :
  (0 <= reads)%Z -> Qneg_bool (Qred (inject_Z reads / 2)) = false.
Proof.
  intros Hr. unfold Qneg_bool. apply negb_false_iff, Qle_bool_iff.
  rewrite Qred_correct. unfold Qle, Qdiv, Qmult, Qinv, inject_Z. simpl. lia.
Qed.

(** X16.  [fraction_non_human] of a row of a returned table, from the
    number of reads [reads] of the host-filter log and the direct count
    [c] of its sample and lane: "NA" when either is missing; the
    quotient of [reads / 2] by [c] when [c] is not zero; and with no
    records in the filtered files ([c = 0]), "NA" when the log counts
    no reads either, the infinity otherwise. *)
Theorem run_counts_fraction_non_human w run_dir md ws rows :
  run_counts w run_dir md = (ws, Ok rows) ->
  exists minimap2 direct,
    snd (minimap2_counts w run_dir md) = Ok minimap2 /\
    direct_sequence_counts w run_dir md = Ok direct /\
    forall row, In row rows ->
      match table_lookup (index row) minimap2,
            table_lookup (index row) direct with
      | Some x, Some y =>
          exists reads c : Z,
            (0 <= reads)%Z /\ (0 <= c)%Z /\
            x = Fin (Qred (inject_Z reads / 2)) /\ y = float_of_int c /\
            non_host_reads row = Num x /\
            (c <> 0%Z ->
             fraction_non_human row =
               Num (Fin (Qred (Qred (inject_Z reads / 2) / inject_Z c)))) /\
            (c = 0%Z -> reads = 0%Z -> fraction_non_human row = NA) /\
            (c = 0%Z -> reads <> 0%Z ->
             fraction_non_human row = Num (Inf false))
      | _, _ => fraction_non_human row = NA
      end.
Proof.
  intros (demux & fastp & minimap2 & direct & _ & _ & Hmm & Hdirect & ->)
    %run_counts_Ok.
  exists minimap2, direct. split; [done|]. split; [done|].
  intros row ([k raw] & <- & Hin)%in_map_iff.
  unfold aggregate_row. simpl. unfold joined.
  destruct (table_lookup k minimap2) as [x|] eqn:Hx; [|done].
  destruct (table_lookup k direct) as [y|] eqn:Hy; [|by destruct x].
  apply table_lookup_Some in Hx, Hy.
  destruct (parsefier_values _ _ _ _ _ _ _ _ Hmm k x Hx)
    as (path & n & Hn & ->).
  apply parse_samtools_counts_Ok in Hn as (reads & Hreads & ->).
  apply direct_sequence_counts_counted in Hdirect.
  rewrite List.Forall_forall in Hdirect.
  destruct (Hdirect _ Hy) as (c & Hc & Hyc). simpl in Hyc. subst y.
  exists reads, c. do 5 (split; [done|]).
  unfold fdiv, float_of_int. cbn [astype_float64].
  rewrite Qeq_bool_inject_Z, half_is_zero, half_not_negative by done.
  split; [|split].
  - intros Hne. by rewrite (proj2 (Z.eqb_neq c 0) Hne).
  - by intros -> ->.
  - intros -> Hne. by rewrite (proj2 (Z.eqb_neq reads 0) Hne).
Qed.

Lemma run_counts_fraction_non_human_witness :
  exists minimap2 direct,
    snd (minimap2_counts (run_of_S1 100) "run" sheet_S1) = Ok minimap2 /\
    direct_sequence_counts (run_of_S1 100) "run" sheet_S1 = Ok direct /\
    table_lookup ("S1", "1") minimap2 = Some (Fin 20) /\
    table_lookup ("S1", "1") direct = Some (Fin 80).
Proof.
  destruct (run_counts_fraction_non_human (run_of_S1 100) "run" sheet_S1 []
              [{| index := ("S1", "1");
                  raw_reads_r1r2 := Num (Fin 200);
                  total_biological_reads_r1r2 := Num (Fin 90);
                  non_host_reads := Num (Fin 20);
                  quality_filtered_reads_r1r2 := Num (Fin 80);
                  fraction_passing_quality_filter := Num (Fin (2 # 5));
                  fraction_non_human := Num (Fin (1 # 4)) |}])
    as (minimap2 & direct & H1 & H2 & _); [vm_compute; reflexivity|].
  exists minimap2, direct. split; [done|]. split; [done|].
  vm_compute in H1, H2. injection H1 as <-. injection H2 as <-.
  split; vm_compute; reflexivity.
Defined.

(** ** Host-filter log parser: where the count is looked for *)

(** X17.  The count is looked for at the very start of the log only: a
    log that does not open with "[" is malformed, whatever its later
    lines say, the pattern being matched at the start of the text even
    though it is compiled for several lines. *)
Theorem parse_samtools_counts_first_line w path :
  startswith "[" (read w path) = false ->
  _parse_samtools_counts w path =
    Raise (ValueError ("The samtools log for " +:+ path +:+ " is malformed")).
Proof.
  intros Hs. unfold _parse_samtools_counts, SAMTOOLS_PATTERN.
  rewrite re_match_lit.
  destruct (strip_prefix "[" (read w path)) as [r|] eqn:Hp; [|done].
  apply strip_prefix_Some in Hp. rewrite Hp in Hs. done.
Qed.

Lemma parse_samtools_counts_first_line_witness :
  _parse_samtools_counts run_log_with_header "run/P/samtools/S1_S1_L001_R1_001.log" =
    Raise (ValueError
             "The samtools log for run/P/samtools/S1_S1_L001_R1_001.log is malformed").
Proof.
  apply (parse_samtools_counts_first_line run_log_with_header
           "run/P/samtools/S1_S1_L001_R1_001.log").
  vm_compute. reflexivity.
Defined.
